(** * Batched Kalman filter kernels of cusignal/estimation/_filters.py

    A shallow embedding of the predict and update GPU kernels (the Numba
    kernels [_numba_predict], [_numba_update] and the CuPy raw kernels
    [_cupy_predict], [_cupy_update] with the device function [inverse]),
    and of the kernel cache ([_populate_kernel_cache],
    [_get_backend_kernel]).

    Arithmetic is exact: buffer cells hold canonical rationals [Qc].
    A buffer is a function from a flat cell index to its content, so a
    cell that was never written holds whatever the buffer held before.

    Execution.  The threads of one filter instance form a
    [dim_x * dim_x] tile.  The source orders the threads of a tile at
    its barriers only; two of the executions it allows are modelled.

    In the lockstep execution (modules [Numba] and [Cupy]) a store
    statement is executed by the whole tile at once: every active
    thread evaluates its right-hand side in the memory found before the
    statement and the stores are then committed one after another in
    the order given by a schedule, so when two threads of the tile
    store to the same cell the thread that comes later in the schedule
    wins.  The schedule is a parameter of every kernel; nothing in the
    source fixes it.  The statements of a kernel are executed in
    program order, each by the whole tile before the next one starts.

    In the thread-by-thread execution (module [Serial], predict
    kernels) the threads of a tile run the code between two barriers
    one after the other, each to completion, in the order of the
    schedule.

    A value that differs between two such executions is not determined
    by the source.  The counterexamples below exhibit one execution;
    the statements on which cells a kernel stores to are proved for the
    lockstep execution with every schedule and do not depend on any
    value read.

    A launch visits the instances of the batch one after another, each
    with the shared memory of the block and the tile slot
    ([threadIdx.z]) that the grid-stride loop gives it.

    Division by zero yields 0 in [Qc]; every result below that
    involves a division has a non-zero divisor. *)

From Stdlib Require Import QArith Qcanon List Arith Lia Permutation Field.
From stdpp Require Import gmap strings.
Import ListNotations.

Open Scope nat_scope.

(** ** Buffers *)

Definition mem := nat -> Qc.

Definition upd (m : mem) (i : nat) (v : Qc) : mem :=
  fun k => if Nat.eqb k i then v else m k.

(** Cell of entry [(a, b)] of instance [z] in a C-contiguous buffer of
    shape [(N, d1, d2)]. *)
Definition idx3 (d1 d2 z a b : nat) : nat := z * d1 * d2 + a * d2 + b.

(** [temp = 0; for j in range(n): temp += f j] *)
Fixpoint loop_sum (n : nat) (f : nat -> Qc) : Qc :=
  match n with
  | O => 0%Qc
  | S k => (loop_sum k f + f k)%Qc
  end.

(** [temp = 0; for j in range(n): temp += a j * b j] *)
Definition dot (n : nat) (a b : nat -> Qc) : Qc :=
  loop_sum n (fun j => (a j * b j)%Qc).

(** ** Threads of a tile *)

(** A thread is named by its first and second grid coordinate:
    [(x, y)] of [cuda.grid(3)] in the Numba kernels, [(tx, ty)] in the
    CuPy kernels. *)
Definition thread := (nat * nat)%type.

Definition tile (dim_x : nat) : list thread :=
  list_prod (seq 0 dim_x) (seq 0 dim_x).

(** One store statement [buf[idx t] = rhs t], guarded by [guard t],
    executed by the threads of [sched]. *)
Fixpoint par_store (sched : list thread) (guard : thread -> bool)
    (idx : thread -> nat) (rhs : thread -> Qc) (m : mem) : mem :=
  match sched with
  | [] => m
  | t :: rest =>
      par_store rest guard idx rhs
        (if guard t then upd m (idx t) (rhs t) else m)
  end.

Definition always : thread -> bool := fun _ => true.

(** ** Launch geometry

    [blockDim = (dim_x, dim_x, bdz)] and [gridDim = (1, 1, gdz)].  The
    grid-stride loop gives instance [z_idx] to the tile whose third grid
    coordinate is [z_idx mod (bdz * gdz)]. *)
Record launch := { bdz : nat; gdz : nat }.

Definition strideZ (l : launch) : nat := bdz l * gdz l.
Definition slot_of (l : launch) (z_idx : nat) : nat :=
  (z_idx mod strideZ l) mod bdz l.
Definition block_of (l : launch) (z_idx : nat) : nat :=
  (z_idx mod strideZ l) / bdz l.

(** Shared memory is per block. *)
Definition set_block {A : Type} (s : nat -> A) (b : nat) (v : A) : nat -> A :=
  fun k => if Nat.eqb k b then v else s k.

(** ** Predict kernels *)

Record predict_bufs := {
  p_alpha : mem;   (* (N, 1, 1) *)
  p_x : mem;       (* (N, dim_x, 1) *)
  p_F : mem;       (* (N, dim_x, dim_x) *)
  p_P : mem;       (* (N, dim_x, dim_x) *)
  p_Q : mem        (* (N, dim_x, dim_x) *)
}.

Record update_bufs := {
  u_x : mem;       (* (N, dim_x, 1) *)
  u_z : mem;       (* (N, dim_z, 1) *)
  u_H : mem;       (* (N, dim_z, dim_x) *)
  u_P : mem;       (* (N, dim_x, dim_x) *)
  u_R : mem        (* (N, dim_z, dim_z) *)
}.

Module Numba.

(** One iteration of the grid-stride loop of [_numba_predict]: the tile
    in slot [tz] of a block handles instance [z_idx].  [s] is the
    block's [s_buffer]; [s_A] is its slice from [0], [s_F] the slice
    from [xx_block_size]. *)
Definition predict_instance (dim_x : nat) (bdim_z : nat)
    (sched : list thread) (tz z_idx : nat) (g : predict_bufs) (s : mem)
    : predict_bufs * mem :=
  let xx_block_size := dim_x * dim_x * bdim_z in
  let xx_idx := dim_x * dim_x * tz in
  let s_A (i : nat) := i in
  let s_F (i : nat) := xx_block_size * 1 + i in
  let x_key (t : thread) := fst t * dim_x + snd t in
  (* s_F[xx_idx + x_key] = F[z_idx, x, y] *)
  let s1 := par_store sched always
              (fun t => s_F (xx_idx + x_key t))
              (fun t => p_F g (idx3 dim_x dim_x z_idx (fst t) (snd t))) s in
  (* syncthreads *)
  let alpha_sq := p_alpha g (idx3 1 1 z_idx 0 0) in
  let local_Q (t : thread) := p_Q g (idx3 dim_x dim_x z_idx (fst t) (snd t)) in
  (* if y == 0: x_in[z_idx, x, y] = sum_j s_F[x, j] * x_in[z_idx, j, y] *)
  let x1 := par_store sched (fun t => Nat.eqb (snd t) 0)
              (fun t => idx3 dim_x 1 z_idx (fst t) (snd t))
              (fun t => dot dim_x
                 (fun j => s1 (s_F (xx_idx + (fst t * dim_x + j))))
                 (fun j => p_x g (idx3 dim_x 1 z_idx j (snd t))))
              (p_x g) in
  (* s_A[xx_idx + x_key] = sum_j s_F[x, j] * P[z_idx, j, y] *)
  let s2 := par_store sched always
              (fun t => s_A (xx_idx + x_key t))
              (fun t => dot dim_x
                 (fun j => s1 (s_F (xx_idx + (fst t * dim_x + j))))
                 (fun j => p_P g (idx3 dim_x dim_x z_idx j (snd t)))) s1 in
  (* syncthreads *)
  (* P[z_idx, x, y] = alpha_sq * sum_j s_A[x, j] * s_F[y, j] + local_Q *)
  let temp (t : thread) := dot dim_x
                 (fun j => s2 (s_A (xx_idx + (fst t * dim_x + j))))
                 (fun j => s2 (s_F (xx_idx + (snd t * dim_x + j)))) in
  let P1 := par_store sched always
              (fun t => idx3 dim_x dim_x z_idx (fst t) (snd t))
              (fun t => (alpha_sq * temp t + local_Q t)%Qc)
              (p_P g) in
  ({| p_alpha := p_alpha g; p_x := x1; p_F := p_F g; p_P := P1;
      p_Q := p_Q g |}, s2).

(** The launch over a batch of [N] instances ([x_in.shape[0]]). *)
Definition predict_step (dim_x : nat) (l : launch) (sched : list thread)
    (st : predict_bufs * (nat -> mem)) (z_idx : nat)
    : predict_bufs * (nat -> mem) :=
  let b := block_of l z_idx in
  let r := predict_instance dim_x (bdz l) sched (slot_of l z_idx) z_idx
             (fst st) (snd st b) in
  (fst r, set_block (snd st) b (snd r)).

Definition predict (dim_x : nat) (l : launch) (sched : list thread)
    (N : nat) (g : predict_bufs) (smem : nat -> mem)
    : predict_bufs * (nat -> mem) :=
  fold_left (predict_step dim_x l sched) (seq 0 N) (g, smem).

(** The statement of [_numba_update] that inverts the innovation
    covariance in place ("Compute linalg.inv(S)"); [s_B] maps an index
    of the slice to its cell of [s_buffer]. *)
Definition linalg_inv (dim_z : nat) (sched : list thread)
    (s_B : nat -> nat) (xx_idx : nat) (m : mem) : mem :=
  let z_key (t : thread) := fst t * dim_z + snd t in
  let sign (t : thread) : Qc :=
    if Nat.eqb ((fst t + snd t) mod 2) 0 then 1%Qc else (- (1))%Qc in
  let sign_det (t : thread) : Qc :=
    let b00 := m (s_B (xx_idx + (0 * dim_z + 0))) in
    let b11 := m (s_B (xx_idx + (1 * dim_z + 1))) in
    let b10 := m (s_B (xx_idx + (1 * dim_z + 0))) in
    let b01 := m (s_B (xx_idx + (0 * dim_z + 1))) in
    (sign t * (b00 * b11 - b10 * b01))%Qc in
  par_store sched
    (fun t => Nat.ltb (fst t) dim_z && Nat.ltb (snd t) dim_z)
    (fun t => s_B (xx_idx + z_key t))
    (fun t =>
       let b := m (s_B (xx_idx + ((dim_z - 1 - fst t) * dim_z
                                  + (dim_z - 1 - snd t)))) in
       (b / sign_det t)%Qc) m.

(** The statement of [_numba_update] that stores the Kalman gain
    ("Compute self.K : dot(PHT, self.SI)"), gated by [y < 2]. *)
Definition kalman_gain (dim_z : nat) (sched : list thread)
    (s_A s_B s_K : nat -> nat) (xx_idx xz_idx : nat) (m : mem) : mem :=
  let z_key (t : thread) := fst t * dim_z + snd t in
  par_store sched (fun t => Nat.ltb (snd t) 2)
    (fun t => s_K (xz_idx + z_key t))
    (fun t => dot dim_z
       (fun j => m (s_A (xx_idx + (fst t * dim_z + j))))
       (fun j => m (s_B (xx_idx + (snd t * dim_z + j))))) m.

(** The same statement with the gate the specification gives as its
    general form, [col < dim_z]. *)
Definition kalman_gain_spec (dim_z : nat) (sched : list thread)
    (s_A s_B s_K : nat -> nat) (xx_idx xz_idx : nat) (m : mem) : mem :=
  let z_key (t : thread) := fst t * dim_z + snd t in
  par_store sched (fun t => Nat.ltb (snd t) dim_z)
    (fun t => s_K (xz_idx + z_key t))
    (fun t => dot dim_z
       (fun j => m (s_A (xx_idx + (fst t * dim_z + j))))
       (fun j => m (s_B (xx_idx + (snd t * dim_z + j))))) m.

(** One iteration of the grid-stride loop of [_numba_update].  [s] is
    the block's [s_buffer]; the seven tiles are consecutive slices of
    it, so an index past the end of one slice addresses the next. *)
Definition update_instance (dim_x dim_z : nat) (bdim_z : nat)
    (sched : list thread) (tz z_idx : nat) (g : update_bufs) (s : mem)
    : update_bufs * mem :=
  let xx_block_size := dim_x * dim_x * bdim_z in
  let xz_block_size := dim_x * dim_z * bdim_z in
  let zz_block_size := dim_z * dim_z * bdim_z in
  let xx_idx := dim_x * dim_x * tz in
  let xz_idx := dim_x * dim_z * tz in
  let zz_idx := dim_z * dim_z * tz in
  let s_A (i : nat) := i in
  let s_B (i : nat) := xx_block_size * 1 + i in
  let s_P (i : nat) := xx_block_size * 2 + i in
  let s_H (i : nat) := xx_block_size * 3 + i in
  let s_K (i : nat) := xx_block_size * 3 + xz_block_size + i in
  let s_R (i : nat) := xx_block_size * 3 + xz_block_size * 2 + i in
  let s_y (i : nat) :=
    xx_block_size * 3 + xz_block_size * 2 + zz_block_size + i in
  let x_key (t : thread) := fst t * dim_x + snd t in
  let z_key (t : thread) := fst t * dim_z + snd t in
  let x_lt_z (t : thread) := Nat.ltb (fst t) dim_z in
  let y_lt_z (t : thread) := Nat.ltb (snd t) dim_z in
  let y_is_0 (t : thread) := Nat.eqb (snd t) 0 in
  (* s_P[xx_idx + x_key] = P[z_idx, x, y] *)
  let m1 := par_store sched always
              (fun t => s_P (xx_idx + x_key t))
              (fun t => u_P g (idx3 dim_x dim_x z_idx (fst t) (snd t))) s in
  (* if x < dim_z: s_H[xz_idx + x_key] = H[z_idx, x, y] *)
  let m2 := par_store sched x_lt_z
              (fun t => s_H (xz_idx + x_key t))
              (fun t => u_H g (idx3 dim_z dim_x z_idx (fst t) (snd t))) m1 in
  (* if x < dim_z and y < dim_z: s_R[zz_idx + z_key] = R[z_idx, x, y] *)
  let m3 := par_store sched (fun t => x_lt_z t && y_lt_z t)
              (fun t => s_R (zz_idx + z_key t))
              (fun t => u_R g (idx3 dim_z dim_z z_idx (fst t) (snd t))) m2 in
  (* syncthreads *)
  (* if x < dim_z and y == 0: s_y[dim_z * tz + x] = z_in - H x *)
  let m4 := par_store sched (fun t => x_lt_z t && y_is_0 t)
              (fun t => s_y (dim_z * tz + fst t))
              (fun t =>
                 let temp_z := u_z g (idx3 dim_z 1 z_idx (fst t) (snd t)) in
                 let temp := dot dim_x
                     (fun j => m3 (s_H (xz_idx + (fst t * dim_x + j))))
                     (fun j => u_x g (idx3 dim_x 1 z_idx j (snd t))) in
                 (temp_z - temp)%Qc)
              m3 in
  (* if y < dim_z: s_A[xx_idx + z_key] = sum_j s_P[x, j] * s_H[y, j] *)
  let m5 := par_store sched y_lt_z
              (fun t => s_A (xx_idx + z_key t))
              (fun t => dot dim_x
                 (fun j => m4 (s_P (xx_idx + (fst t * dim_x + j))))
                 (fun j => m4 (s_H (xz_idx + (snd t * dim_x + j))))) m4 in
  (* syncthreads *)
  (* if x < dim_z and y < dim_z: s_B[xx_idx + z_key] = H PHT + R *)
  let m6 := par_store sched (fun t => x_lt_z t && y_lt_z t)
              (fun t => s_B (xx_idx + z_key t))
              (fun t =>
                 let temp := dot dim_x
                     (fun j => m5 (s_H (xz_idx + (fst t * dim_x + j))))
                     (fun j => m5 (s_A (xx_idx + (j * dim_z + snd t)))) in
                 let r := m5 (s_R (zz_idx + z_key t)) in
                 (temp + r)%Qc) m5 in
  (* syncthreads *)
  (* if x < dim_z and y < dim_z: s_B[xx_idx + z_key] = ... / sign_det *)
  let m7 := linalg_inv dim_z sched s_B xx_idx m6 in
  (* syncthreads *)
  (* if y < 2: s_K[xz_idx + z_key] = sum_j s_A[x, j] * s_B[y, j] *)
  let m8 := kalman_gain dim_z sched s_A s_B s_K xx_idx xz_idx m7 in
  (* syncthreads *)
  (* if y == 0: x_in[z_idx, x, y] += sum_j s_K[x, j] * s_y[j] *)
  let x1 := par_store sched y_is_0
              (fun t => idx3 dim_x 1 z_idx (fst t) (snd t))
              (fun t =>
                 let temp := dot dim_z
                     (fun j => m8 (s_K (xz_idx + (fst t * dim_z + j))))
                     (fun j => m8 (s_y (dim_z * tz + j))) in
                 (u_x g (idx3 dim_x 1 z_idx (fst t) (snd t)) + temp)%Qc)
              (u_x g) in
  (* s_A[xx_idx + x_key] = (1.0 if x == y else 0.0) - sum_j s_K[x, j] * s_H[j, y] *)
  let m9 := par_store sched always
              (fun t => s_A (xx_idx + x_key t))
              (fun t =>
                 let temp := dot dim_z
                     (fun j => m8 (s_K (xz_idx + (fst t * dim_z + j))))
                     (fun j => m8 (s_H (xz_idx + (j * dim_x + snd t)))) in
                 ((if Nat.eqb (fst t) (snd t) then 1 else 0) - temp)%Qc)
              m8 in
  (* syncthreads *)
  (* s_B[xx_idx + x_key] = sum_j s_A[x, j] * s_P[j, y] *)
  let m10 := par_store sched always
              (fun t => s_B (xx_idx + x_key t))
              (fun t => dot dim_x
                 (fun j => m9 (s_A (xx_idx + (fst t * dim_x + j))))
                 (fun j => m9 (s_P (xx_idx + (j * dim_x + snd t))))) m9 in
  (* syncthreads *)
  (* temp = sum_j s_B[x, j] * s_A[y, j], kept in a register *)
  let temp (t : thread) := dot dim_x
                 (fun j => m10 (s_B (xx_idx + (fst t * dim_x + j))))
                 (fun j => m10 (s_A (xx_idx + (snd t * dim_x + j)))) in
  (* temp2 = sum_j s_K[x, j] * s_R[j, y] if y < dim_z, else 0;
     s_A[xx_idx + z_key] = temp2 *)
  let m11 := par_store sched always
              (fun t => s_A (xx_idx + z_key t))
              (fun t => if y_lt_z t
                 then dot dim_z
                     (fun j => m10 (s_K (xz_idx + (fst t * dim_z + j))))
                     (fun j => m10 (s_R (zz_idx + (j * dim_z + snd t))))
                 else 0%Qc) m10 in
  (* syncthreads *)
  (* P[z_idx, x, y] = temp + sum_j s_A[x, j] * s_K[y, j] *)
  let P1 := par_store sched always
              (fun t => idx3 dim_x dim_x z_idx (fst t) (snd t))
              (fun t =>
                 let temp2 := dot dim_z
                     (fun j => m11 (s_A (xx_idx + (fst t * dim_z + j))))
                     (fun j => m11 (s_K (xz_idx + (snd t * dim_z + j)))) in
                 (temp t + temp2)%Qc)
              (u_P g) in
  ({| u_x := x1; u_z := u_z g; u_H := u_H g; u_P := P1; u_R := u_R g |},
   m11).

Definition update_step (dim_x dim_z : nat) (l : launch)
    (sched : list thread) (st : update_bufs * (nat -> mem)) (z_idx : nat)
    : update_bufs * (nat -> mem) :=
  let b := block_of l z_idx in
  let r := update_instance dim_x dim_z (bdz l) sched (slot_of l z_idx)
             z_idx (fst st) (snd st b) in
  (fst r, set_block (snd st) b (snd r)).

Definition update (dim_x dim_z : nat) (l : launch) (sched : list thread)
    (N : nat) (g : update_bufs) (smem : nat -> mem)
    : update_bufs * (nat -> mem) :=
  fold_left (update_step dim_x dim_z l sched) (seq 0 N) (g, smem).

End Numba.

(** The two [__shared__] arrays of [_cupy_predict]. *)
Record predict_smem := { ps_A : mem; ps_F : mem }.

(** The seven [__shared__] arrays of [_cupy_update]. *)
Record update_smem := {
  us_A : mem; us_B : mem; us_P : mem; us_H : mem;
  us_K : mem; us_R : mem; us_y : mem
}.

Module Cupy.

(** One iteration of the grid-stride loop of [_cupy_predict]; a thread
    is [(tx, ty)], [tz] is [threadIdx.z]. *)
Definition predict_instance (DIM_X : nat) (sched : list thread)
    (tz tid_z : nat) (g : predict_bufs) (s : predict_smem)
    : predict_bufs * predict_smem :=
  let xx_idx := DIM_X * DIM_X * tz in
  let x_value (t : thread) := snd t * DIM_X + fst t in
  (* s_F[xx_idx + x_value] = F[tid_z * DIM_X * DIM_X + ty * DIM_X + tx] *)
  let s_F := par_store sched always
               (fun t => xx_idx + x_value t)
               (fun t => p_F g (tid_z * DIM_X * DIM_X + snd t * DIM_X + fst t))
               (ps_F s) in
  (* __syncthreads *)
  let alpha2 := p_alpha g tid_z in
  let localQ (t : thread) :=
    p_Q g (tid_z * DIM_X * DIM_X + snd t * DIM_X + fst t) in
  (* if tx == 0: x_in[..ty..] = sum_j s_F[ty, j] * x_in[..j..] *)
  let x1 := par_store sched (fun t => Nat.eqb (fst t) 0)
              (fun t => tid_z * DIM_X * 1 + snd t * 1 + fst t)
              (fun t => dot DIM_X
                 (fun j => s_F (xx_idx + (snd t * DIM_X + j)))
                 (fun j => p_x g (tid_z * DIM_X * 1 + j * 1 + fst t)))
              (p_x g) in
  (* s_A[xx_idx + x_value] = sum_j s_F[ty, j] * P[j, tx] *)
  let s_A := par_store sched always
               (fun t => xx_idx + x_value t)
               (fun t => dot DIM_X
                  (fun j => s_F (xx_idx + (snd t * DIM_X + j)))
                  (fun j => p_P g (tid_z * DIM_X * DIM_X + j * DIM_X + fst t)))
               (ps_A s) in
  (* __syncthreads *)
  let temp (t : thread) := dot DIM_X
                 (fun j => s_A (xx_idx + (snd t * DIM_X + j)))
                 (fun j => s_F (xx_idx + (fst t * DIM_X + j))) in
  (* P[..] = alpha2 * temp + localQ *)
  let P1 := par_store sched always
              (fun t => tid_z * DIM_X * DIM_X + snd t * DIM_X + fst t)
              (fun t => (alpha2 * temp t + localQ t)%Qc)
              (p_P g) in
  ({| p_alpha := p_alpha g; p_x := x1; p_F := p_F g; p_P := P1;
      p_Q := p_Q g |}, {| ps_A := s_A; ps_F := s_F |}).

Definition predict_step (DIM_X : nat) (l : launch) (sched : list thread)
    (st : predict_bufs * (nat -> predict_smem)) (tid_z : nat)
    : predict_bufs * (nat -> predict_smem) :=
  let b := block_of l tid_z in
  let r := predict_instance DIM_X sched (slot_of l tid_z) tid_z
             (fst st) (snd st b) in
  (fst r, set_block (snd st) b (snd r)).

(** [num_points = x.shape[0]] *)
Definition predict (DIM_X : nat) (l : launch) (sched : list thread)
    (num_points : nat) (g : predict_bufs) (smem : nat -> predict_smem)
    : predict_bufs * (nat -> predict_smem) :=
  fold_left (predict_step DIM_X l sched) (seq 0 num_points) (g, smem).

(** The device function [inverse<T, DIM_Z>]: the value thread
    [(tx, ty)] computes from the matrix stored at [s_B[idx ..]].  In the
    last branch only [determinant] is assigned and the zero-initialised
    [temp] is returned as it is. *)
Definition inverse (DIM_Z : nat) (idx tx ty : nat) (s_B : mem) : Qc :=
  let sign : Qc :=
    if Nat.eqb ((tx + ty) mod 2) 0 then 1%Qc else (- (1))%Qc in
  if Nat.eqb DIM_Z 2 then
    let b00 := s_B (idx + (0 * DIM_Z + 0)) in
    let b11 := s_B (idx + (1 * DIM_Z + 1)) in
    let b10 := s_B (idx + (1 * DIM_Z + 0)) in
    let b01 := s_B (idx + (0 * DIM_Z + 1)) in
    let determinant := (b00 * b11 - b10 * b01)%Qc in
    let temp :=
      s_B (idx + (((tx + 1) mod DIM_Z) * DIM_Z + ((ty + 1) mod DIM_Z))) in
    (temp / (determinant * sign))%Qc
  else if Nat.eqb DIM_Z 3 then
    let determinant := loop_sum DIM_Z (fun i =>
      let a0 := s_B (idx + (0 * DIM_Z + i)) in
      let a11 := s_B (idx + (1 * DIM_Z + ((i + 1) mod DIM_Z))) in
      let a22 := s_B (idx + (2 * DIM_Z + ((i + 2) mod DIM_Z))) in
      let a12 := s_B (idx + (1 * DIM_Z + ((i + 2) mod DIM_Z))) in
      let a21 := s_B (idx + (2 * DIM_Z + ((i + 1) mod DIM_Z))) in
      (a0 * (a11 * a22 - a12 * a21))%Qc) in
    let c11 :=
      s_B (idx + (((tx + 1) mod DIM_Z) * DIM_Z + ((ty + 1) mod DIM_Z))) in
    let c22 :=
      s_B (idx + (((tx + 2) mod DIM_Z) * DIM_Z + ((ty + 2) mod DIM_Z))) in
    let c12 :=
      s_B (idx + (((tx + 1) mod DIM_Z) * DIM_Z + ((ty + 2) mod DIM_Z))) in
    let c21 :=
      s_B (idx + (((tx + 2) mod DIM_Z) * DIM_Z + ((ty + 1) mod DIM_Z))) in
    let temp := (c11 * c22 - c12 * c21)%Qc in
    (temp / (determinant * sign))%Qc
  else 0%Qc.

(** The statement of [_cupy_update] that overwrites the innovation
    covariance with the values returned by [inverse]. *)
Definition invert_S (DIM_Z : nat) (sched : list thread) (xx_idx : nat)
    (s_B : mem) : mem :=
  par_store sched
    (fun t => Nat.ltb (fst t) DIM_Z && Nat.ltb (snd t) DIM_Z)
    (fun t => xx_idx + (snd t * DIM_Z + fst t))
    (fun t => inverse DIM_Z xx_idx (fst t) (snd t) s_B) s_B.

(** The statement of [_cupy_update] that stores the Kalman gain, gated
    by [tx < 2]. *)
Definition kalman_gain (DIM_Z : nat) (sched : list thread)
    (xx_idx xz_idx : nat) (s_A s_B s_K : mem) : mem :=
  par_store sched (fun t => Nat.ltb (fst t) 2)
    (fun t => xz_idx + (snd t * DIM_Z + fst t))
    (fun t => dot DIM_Z
       (fun j => s_A (xx_idx + (snd t * DIM_Z + j)))
       (fun j => s_B (xx_idx + (fst t * DIM_Z + j)))) s_K.

(** The same statement with the gate [col < DIM_Z]. *)
Definition kalman_gain_spec (DIM_Z : nat) (sched : list thread)
    (xx_idx xz_idx : nat) (s_A s_B s_K : mem) : mem :=
  par_store sched (fun t => Nat.ltb (fst t) DIM_Z)
    (fun t => xz_idx + (snd t * DIM_Z + fst t))
    (fun t => dot DIM_Z
       (fun j => s_A (xx_idx + (snd t * DIM_Z + j)))
       (fun j => s_B (xx_idx + (fst t * DIM_Z + j)))) s_K.

(** One iteration of the grid-stride loop of [_cupy_update]. *)
Definition update_instance (DIM_X DIM_Z : nat) (sched : list thread)
    (tz tid_z : nat) (g : update_bufs) (s : update_smem)
    : update_bufs * update_smem :=
  let xx_idx := DIM_X * DIM_X * tz in
  let xz_idx := DIM_X * DIM_Z * tz in
  let zz_idx := DIM_Z * DIM_Z * tz in
  let x_value (t : thread) := snd t * DIM_X + fst t in
  let z_value (t : thread) := snd t * DIM_Z + fst t in
  let tx_lt_z (t : thread) := Nat.ltb (fst t) DIM_Z in
  let ty_lt_z (t : thread) := Nat.ltb (snd t) DIM_Z in
  let tx_is_0 (t : thread) := Nat.eqb (fst t) 0 in
  (* s_P[xx_idx + x_value] = P[tid_z * DIM_X * DIM_X + ty * DIM_X + tx] *)
  let s_P1 := par_store sched always
              (fun t => xx_idx + x_value t)
              (fun t => u_P g (tid_z * DIM_X * DIM_X + snd t * DIM_X + fst t))
              (us_P s) in
  (* if ty < DIM_Z: s_H[xz_idx + x_value] = H[..] *)
  let s_H1 := par_store sched ty_lt_z
              (fun t => xz_idx + x_value t)
              (fun t => u_H g (tid_z * DIM_Z * DIM_X + snd t * DIM_X + fst t))
              (us_H s) in
  (* if ty < DIM_Z && tx < DIM_Z: s_R[zz_idx + z_value] = R[..] *)
  let s_R1 := par_store sched (fun t => ty_lt_z t && tx_lt_z t)
              (fun t => zz_idx + z_value t)
              (fun t => u_R g (tid_z * DIM_Z * DIM_Z + snd t * DIM_Z + fst t))
              (us_R s) in
  (* __syncthreads *)
  (* if tx == 0 && ty < DIM_Z: s_y[..] = temp_z - sum_j s_H[ty, j] * x_in[j] *)
  let s_y1 := par_store sched (fun t => tx_is_0 t && ty_lt_z t)
              (fun t => tz * DIM_Z * 1 + snd t * 1 + fst t)
              (fun t =>
                 let temp_z := u_z g (tid_z * DIM_Z * 1 + snd t * 1 + fst t) in
                 let temp := dot DIM_X
                     (fun j => s_H1 (xz_idx + (snd t * DIM_X + j)))
                     (fun j => u_x g (tid_z * DIM_X * 1 + j * 1 + fst t)) in
                 (temp_z - temp)%Qc)
              (us_y s) in
  (* if tx < DIM_Z: s_A[xx_idx + z_value] = sum_j s_P[ty, j] * s_H[tx, j] *)
  let s_A1 := par_store sched tx_lt_z
              (fun t => xx_idx + z_value t)
              (fun t => dot DIM_X
                 (fun j => s_P1 (xx_idx + (snd t * DIM_X + j)))
                 (fun j => s_H1 (xz_idx + (fst t * DIM_X + j))))
              (us_A s) in
  (* __syncthreads *)
  (* if tx < DIM_Z && ty < DIM_Z: s_B[xx_idx + z_value] = H PHT + R *)
  let s_B1 := par_store sched (fun t => tx_lt_z t && ty_lt_z t)
              (fun t => xx_idx + z_value t)
              (fun t =>
                 let temp := dot DIM_X
                     (fun j => s_H1 (xz_idx + (snd t * DIM_X + j)))
                     (fun j => s_A1 (xx_idx + (j * DIM_Z + fst t))) in
                 let r := s_R1 (zz_idx + z_value t) in
                 (temp + r)%Qc)
              (us_B s) in
  (* __syncthreads *)
  (* if tx < DIM_Z && ty < DIM_Z:
       s_B[xx_idx + z_value] = inverse<T, DIM_Z>(xx_idx, tx, ty, s_B) *)
  let s_B2 := invert_S DIM_Z sched xx_idx s_B1 in
  (* __syncthreads *)
  (* if tx < 2: s_K[xz_idx + z_value] = sum_j s_A[ty, j] * s_B[tx, j] *)
  let s_K1 := kalman_gain DIM_Z sched xx_idx xz_idx s_A1 s_B2 (us_K s) in
  (* __syncthreads *)
  (* if tx == 0: x_in[..] += sum_j s_K[ty, j] * s_y[j] *)
  let x1 := par_store sched tx_is_0
              (fun t => tid_z * DIM_X * 1 + snd t * 1 + fst t)
              (fun t =>
                 let temp := dot DIM_Z
                     (fun j => s_K1 (xz_idx + (snd t * DIM_Z + j)))
                     (fun j => s_y1 (tz * DIM_Z + j)) in
                 let x_old := u_x g (tid_z * DIM_X * 1 + snd t * 1 + fst t) in
                 (x_old + temp)%Qc)
              (u_x g) in
  (* s_A[xx_idx + x_value] = ((tx == ty) ? 1 : 0) - sum_j s_K[ty, j] * s_H[j, tx] *)
  let s_A2 := par_store sched always
              (fun t => xx_idx + x_value t)
              (fun t =>
                 let temp := dot DIM_Z
                     (fun j => s_K1 (xz_idx + (snd t * DIM_Z + j)))
                     (fun j => s_H1 (xz_idx + (j * DIM_X + fst t))) in
                 ((if Nat.eqb (fst t) (snd t) then 1 else 0) - temp)%Qc)
              s_A1 in
  (* __syncthreads *)
  (* s_B[xx_idx + x_value] = sum_j s_A[ty, j] * s_P[j, tx] *)
  let s_B3 := par_store sched always
              (fun t => xx_idx + x_value t)
              (fun t => dot DIM_X
                 (fun j => s_A2 (xx_idx + (snd t * DIM_X + j)))
                 (fun j => s_P1 (xx_idx + (j * DIM_X + fst t))))
              s_B2 in
  (* __syncthreads *)
  (* s_P[xx_idx + (ty * DIM_X + tx)] = sum_j s_B[ty, j] * s_A[tx, j] *)
  let s_P2 := par_store sched always
              (fun t => xx_idx + (snd t * DIM_X + fst t))
              (fun t => dot DIM_X
                 (fun j => s_B3 (xx_idx + (snd t * DIM_X + j)))
                 (fun j => s_A2 (xx_idx + (fst t * DIM_X + j))))
              s_P1 in
  (* temp = sum_j s_K[ty, j] * s_R[j, tx] if tx < DIM_Z, else 0;
     s_A[xx_idx + z_value] = temp *)
  let s_A3 := par_store sched always
              (fun t => xx_idx + z_value t)
              (fun t => if tx_lt_z t
                 then dot DIM_Z
                     (fun j => s_K1 (xz_idx + (snd t * DIM_Z + j)))
                     (fun j => s_R1 (zz_idx + (j * DIM_Z + fst t)))
                 else 0%Qc)
              s_A2 in
  (* __syncthreads *)
  (* P[..] = s_P[xx_idx + (ty * DIM_X + tx)] + sum_j s_A[ty, j] * s_K[tx, j] *)
  let P1 := par_store sched always
              (fun t => tid_z * DIM_X * DIM_X + snd t * DIM_X + fst t)
              (fun t =>
                 let temp := dot DIM_Z
                     (fun j => s_A3 (xx_idx + (snd t * DIM_Z + j)))
                     (fun j => s_K1 (xz_idx + (fst t * DIM_Z + j))) in
                 let p := s_P2 (xx_idx + (snd t * DIM_X + fst t)) in
                 (p + temp)%Qc)
              (u_P g) in
  ({| u_x := x1; u_z := u_z g; u_H := u_H g; u_P := P1; u_R := u_R g |},
   {| us_A := s_A3; us_B := s_B3; us_P := s_P2; us_H := s_H1;
      us_K := s_K1; us_R := s_R1; us_y := s_y1 |}).

Definition update_step (DIM_X DIM_Z : nat) (l : launch)
    (sched : list thread) (st : update_bufs * (nat -> update_smem))
    (tid_z : nat) : update_bufs * (nat -> update_smem) :=
  let b := block_of l tid_z in
  let r := update_instance DIM_X DIM_Z sched (slot_of l tid_z) tid_z
             (fst st) (snd st b) in
  (fst r, set_block (snd st) b (snd r)).

Definition update (DIM_X DIM_Z : nat) (l : launch) (sched : list thread)
    (num_points : nat) (g : update_bufs) (smem : nat -> update_smem)
    : update_bufs * (nat -> update_smem) :=
  fold_left (update_step DIM_X DIM_Z l sched) (seq 0 num_points) (g, smem).

End Cupy.

(** ** Matrices of one filter instance

    The textbook operations the kernels are compared with. *)

Definition matrix := nat -> nat -> Qc.
Definition vec := nat -> Qc.

Definition mat_vec (n : nat) (A : matrix) (v : vec) : vec :=
  fun i => dot n (A i) v.

Definition mat_mul (n : nat) (A B : matrix) : matrix :=
  fun i k => dot n (A i) (fun j => B j k).

Definition transpose (A : matrix) : matrix := fun i j => A j i.

Definition mat_add (A B : matrix) : matrix := fun i j => (A i j + B i j)%Qc.
Definition mat_sub (A B : matrix) : matrix := fun i j => (A i j - B i j)%Qc.
Definition mat_scale (c : Qc) (A : matrix) : matrix :=
  fun i j => (c * A i j)%Qc.
Definition identity : matrix :=
  fun i j => if Nat.eqb i j then 1%Qc else 0%Qc.
Definition vec_add (u v : vec) : vec := fun i => (u i + v i)%Qc.
Definition vec_sub (u v : vec) : vec := fun i => (u i - v i)%Qc.

(** Instance [z] of a batched buffer of shape [(N, d1, d2)], as a
    matrix, and of a buffer of shape [(N, d, 1)], as a vector. *)
Definition mat_at (buf : mem) (d1 d2 z : nat) : matrix :=
  fun a b => buf (idx3 d1 d2 z a b).
Definition vec_at (buf : mem) (d z : nat) : vec :=
  fun a => buf (idx3 d 1 z a 0).

(** Buffers given by their cells in order; cells past the end hold 0. *)
Definition mem_of (l : list Qc) : mem := fun i => nth i l 0%Qc.
Definition qz (n : Z) : Qc := Q2Qc (inject_Z n).
Definition qf (n : Z) (d : positive) : Qc := Q2Qc (n # d).
Definition zeros : mem := fun _ => 0%Qc.

(** ** Element types and shared-memory staging *)

(** The Numba types of [_SUPPORTED_TYPES]. *)
Inductive numba_type := nb_float32 | nb_float64.

(** A binary floating-point value [mant * 2 ^ expo]; the exponent range
    is left unbounded, only the width of the significand matters here. *)
Record fl := { mant : Z; expo : Z }.

Definition fl_val (v : fl) : Qc :=
  if (0 <=? expo v)%Z then qz (mant v * 2 ^ expo v)
  else qf (mant v) (Z.to_pos (2 ^ (- expo v))).

(** Significand width of an element type. *)
Definition prec (t : numba_type) : Z :=
  match t with nb_float32 => 24%Z | nb_float64 => 53%Z end.

(** Round a significand to [p] bits, to nearest, ties to even; returns
    the new significand and the number of bits dropped. *)
Definition round_mant (p m : Z) : Z * Z :=
  let sh := (Z.log2 (Z.abs m) + 1 - p)%Z in
  if (sh <=? 0)%Z then (m, 0%Z)
  else
    let q := (Z.abs m / 2 ^ sh)%Z in
    let r := (Z.abs m mod 2 ^ sh)%Z in
    let half := (2 ^ (sh - 1))%Z in
    let q' := if (r <? half)%Z then q
              else if (half <? r)%Z then (q + 1)%Z
              else if Z.even q then q else (q + 1)%Z in
    ((Z.sgn m * q')%Z, sh).

(** Storing [v] into an array of element type [t]. *)
Definition cast (t : numba_type) (v : fl) : fl :=
  let r := round_mant (prec t) (mant v) in
  {| mant := fst r; expo := (expo v + snd r)%Z |}.

Definition representable (t : numba_type) (v : fl) : Prop :=
  (Z.abs (mant v) < 2 ^ prec t)%Z.

(** Element type of the shared-memory tiles of a kernel compiled for
    element type [ty]: [cuda.shared.array(shape=0, dtype=float32)] in
    [_numba_predict] and [_numba_update], [__shared__ T s_A[..]] in the
    CuPy kernels. *)
Definition numba_smem_dtype (ty : numba_type) : numba_type := nb_float32.
Definition cupy_smem_dtype (T : numba_type) : numba_type := T.

(** The value a thread reads back from a tile after staging [v] read
    from an input buffer of element type [ty]. *)
Definition numba_stage (ty : numba_type) (v : fl) : fl :=
  cast (numba_smem_dtype ty) v.
Definition cupy_stage (T : numba_type) (v : fl) : fl :=
  cast (cupy_smem_dtype T) v.

(** ** Kernel cache *)

Inductive GPUKernel := PREDICT | UPDATE.

#[global] Instance GPUKernel_eq_dec : EqDecision GPUKernel.
Proof. solve_decision. Defined.

#[global] Instance GPUKernel_countable : Countable GPUKernel.
Proof.
  refine (inj_countable'
            (fun k => match k with PREDICT => false | UPDATE => true end)
            (fun b : bool => if b then UPDATE else PREDICT) _).
  intros []; reflexivity.
Defined.

(** Array element types a caller can pass as [np_type]. *)
Inductive np_type :=
  | cp_float16 | cp_float32 | cp_float64
  | cp_int32 | cp_int64 | cp_complex64 | cp_complex128.

(** [dtype.name] *)
Definition dtype_name (t : np_type) : string :=
  match t with
  | cp_float16 => "float16" | cp_float32 => "float32"
  | cp_float64 => "float64" | cp_int32 => "int32" | cp_int64 => "int64"
  | cp_complex64 => "complex64" | cp_complex128 => "complex128"
  end.

(** [str(numba_type)] *)
Definition numba_str (t : numba_type) : string :=
  match t with nb_float32 => "float32" | nb_float64 => "float64" end.

(** The dictionary [_SUPPORTED_TYPES]. *)
Definition _SUPPORTED_TYPES (t : np_type) : option (numba_type * string) :=
  match t with
  | cp_float32 => Some (nb_float32, "float")
  | cp_float64 => Some (nb_float64, "double")
  | _ => None
  end.

Inductive exn :=
  | KeyError
  | ValueError (msg : string)
  | NotImplementedError (msg : string)
  | Exception (msg : string).

Inductive result (A : Type) :=
  | Ok (a : A)
  | Raise (e : exn).
Arguments Ok {A} a.
Arguments Raise {A} e.

(** [d[k]] on a dictionary: a missing key raises [KeyError]. *)
Definition subscript {A : Type} (o : option A) : result A :=
  match o with Some a => Ok a | None => Raise KeyError end.

(** [try: body  except ValueError: handler]: only a [ValueError] is
    caught ([KeyError] derives from [LookupError]). *)
Definition try_except_ValueError {A : Type} (body : result A)
    (handler : result A) : result A :=
  match body with
  | Raise (ValueError _) => handler
  | other => other
  end.

(** A built kernel.  A CuPy kernel is one template instance of the raw
    module, fixed by its template arguments; a Numba kernel is the
    Python function compiled for a signature, its dimensions are read
    from the array shapes at run time. *)
Inductive kernel :=
  | cupy_predict_fn (c_type : string) (DIM_X MAX_TPB MIN_BPSM : nat)
  | cupy_update_fn (c_type : string) (DIM_X DIM_Z MAX_TPB MIN_BPSM : nat)
  | numba_jit (fn : GPUKernel) (sig : numba_type).

Record caches := {
  _numba_kernel_cache : gmap (string * GPUKernel) kernel;
  _cupy_kernel_cache : gmap (string * GPUKernel) kernel
}.

Definition _populate_kernel_cache (np_ty : np_type) (use_numba : bool)
    (dim_x dim_z max_tpb min_bpsm : nat) (c : caches)
    : caches * result unit :=
  match try_except_ValueError (subscript (_SUPPORTED_TYPES np_ty))
          (Raise (Exception "No kernel found for datatype")) with
  | Raise e => (c, Raise e)
  | Ok (numba_ty, c_type) =>
      if negb use_numba then
        let k0 := cupy_predict_fn c_type dim_x max_tpb min_bpsm in
        let k1 := cupy_update_fn c_type dim_x dim_z max_tpb min_bpsm in
        ({| _numba_kernel_cache := _numba_kernel_cache c;
            _cupy_kernel_cache :=
              <[(numba_str numba_ty, UPDATE) := k1]>
                (<[(numba_str numba_ty, PREDICT) := k0]>
                   (_cupy_kernel_cache c)) |}, Ok tt)
      else
        ({| _numba_kernel_cache :=
              <[(numba_str numba_ty, UPDATE) := numba_jit UPDATE numba_ty]>
                (<[(numba_str numba_ty, PREDICT) :=
                     numba_jit PREDICT numba_ty]>
                   (_numba_kernel_cache c));
            _cupy_kernel_cache := _cupy_kernel_cache c |}, Ok tt)
  end.

(** [_get_backend_kernel]: the launch configuration it wraps around the
    kernel is left out; a kernel object is truthy. *)
Definition _get_backend_kernel (dtype : np_type) (use_numba : bool)
    (k_type : GPUKernel) (c : caches) : result kernel :=
  if negb use_numba then
    match subscript (_cupy_kernel_cache c !! (dtype_name dtype, k_type)) with
    | Raise e => Raise e
    | Ok k => Ok k
    end
  else
    match subscript (_numba_kernel_cache c !! (dtype_name dtype, k_type)) with
    | Raise e => Raise e
    | Ok k => Ok k
    end.

Definition empty_caches : caches :=
  {| _numba_kernel_cache := ∅; _cupy_kernel_cache := ∅ |}.

(** ** The Kalman predict step *)

Definition kalman_predict_x (dim_x : nat) (g : predict_bufs) (i : nat) : vec :=
  mat_vec dim_x (mat_at (p_F g) dim_x dim_x i) (vec_at (p_x g) dim_x i).

Definition kalman_predict_P (dim_x : nat) (g : predict_bufs) (i : nat)
    : matrix :=
  let F := mat_at (p_F g) dim_x dim_x i in
  let P := mat_at (p_P g) dim_x dim_x i in
  let Q := mat_at (p_Q g) dim_x dim_x i in
  mat_add (mat_scale (p_alpha g i)
             (mat_mul dim_x (mat_mul dim_x F P) (transpose F))) Q.

(** What a predict launch has to preserve until instance [i] is
    reached: the inputs of instance [i]. *)
Definition predict_inputs_kept (dim_x i : nat) (g g' : predict_bufs) : Prop :=
  p_alpha g' = p_alpha g /\ p_F g' = p_F g /\ p_Q g' = p_Q g /\
  (forall a, a < dim_x ->
     p_x g' (idx3 dim_x 1 i a 0) = p_x g (idx3 dim_x 1 i a 0)) /\
  (forall a b, a < dim_x -> b < dim_x ->
     p_P g' (idx3 dim_x dim_x i a b) = p_P g (idx3 dim_x dim_x i a b)).

Definition predict_done (dim_x i : nat) (g g' : predict_bufs) : Prop :=
  (forall row, row < dim_x ->
     vec_at (p_x g') dim_x i row = kalman_predict_x dim_x g i row) /\
  (forall row col, row < dim_x -> col < dim_x ->
     mat_at (p_P g') dim_x dim_x i row col
     = kalman_predict_P dim_x g i row col).


(** ** The Kalman update step *)

(** [S = H P H^T + R] of instance [i]. *)
Definition innovation_cov (dim_x dim_z : nat) (g : update_bufs) (i : nat)
    : matrix :=
  let H := mat_at (u_H g) dim_z dim_x i in
  let P := mat_at (u_P g) dim_x dim_x i in
  let R := mat_at (u_R g) dim_z dim_z i in
  mat_add (mat_mul dim_x H (mat_mul dim_x P (transpose H))) R.

Definition is_inverse (n : nat) (A B : matrix) : Prop :=
  forall r c, r < n -> c < n ->
    mat_mul n A B r c = identity r c /\ mat_mul n B A r c = identity r c.

Definition symmetric (n : nat) (A : matrix) : Prop :=
  forall r c, r < n -> c < n -> A r c = A c r.

(** [K = P H^T S^-1] *)
Definition gain_of (dim_x dim_z : nat) (g : update_bufs) (i : nat)
    (Sinv : matrix) : matrix :=
  let H := mat_at (u_H g) dim_z dim_x i in
  let P := mat_at (u_P g) dim_x dim_x i in
  mat_mul dim_z (mat_mul dim_x P (transpose H)) Sinv.

(** [x + K (z - H x)] *)
Definition kalman_update_x (dim_x dim_z : nat) (g : update_bufs) (i : nat)
    (Sinv : matrix) : vec :=
  let H := mat_at (u_H g) dim_z dim_x i in
  let x := vec_at (u_x g) dim_x i in
  let z := vec_at (u_z g) dim_z i in
  let K := gain_of dim_x dim_z g i Sinv in
  vec_add x (mat_vec dim_z K (vec_sub z (mat_vec dim_x H x))).

(** [(I - K H) P (I - K H)^T + K R K^T] *)
Definition kalman_update_P (dim_x dim_z : nat) (g : update_bufs) (i : nat)
    (Sinv : matrix) : matrix :=
  let H := mat_at (u_H g) dim_z dim_x i in
  let P := mat_at (u_P g) dim_x dim_x i in
  let R := mat_at (u_R g) dim_z dim_z i in
  let K := gain_of dim_x dim_z g i Sinv in
  let I_KH := mat_sub identity (mat_mul dim_z K H) in
  mat_add (mat_mul dim_x (mat_mul dim_x I_KH P) (transpose I_KH))
          (mat_mul dim_z (mat_mul dim_z K R) (transpose K)).

(** ** Schedules and inputs used below *)

(** The threads of a tile by increasing
    [threadIdx.x + threadIdx.y * blockDim.x]. *)
Definition lanes (dim_x : nat) : list thread :=
  flat_map (fun y => map (fun x => (x, y)) (seq 0 dim_x)) (seq 0 dim_x).

Definition one_tile : launch := {| bdz := 1; gdz := 1 |}.

Definition zero_smem : update_smem :=
  {| us_A := zeros; us_B := zeros; us_P := zeros; us_H := zeros;
     us_K := zeros; us_R := zeros; us_y := zeros |}.

Definition diag3 (a b c : Qc) : mem :=
  mem_of [a; 0%Qc; 0%Qc; 0%Qc; b; 0%Qc; 0%Qc; 0%Qc; c].

(** [dim_x = 3], [dim_z = 3]: [P = H = I], [R = diag(1, 2, 3)], [x = 0],
    [z = (1, 1, 1)]; then [S = diag(2, 3, 4)]. *)
Definition g33 : update_bufs :=
  {| u_x := mem_of [qz 0; qz 0; qz 0];
     u_z := mem_of [qz 1; qz 1; qz 1];
     u_H := diag3 (qz 1) (qz 1) (qz 1);
     u_P := diag3 (qz 1) (qz 1) (qz 1);
     u_R := diag3 (qz 1) (qz 2) (qz 3) |}.

Definition Sinv33 : matrix :=
  mat_at (diag3 (qf 1 2) (qf 1 3) (qf 1 4)) 3 3 0.

(** [dim_x = 3], [dim_z = 2]: [P = I], [H = [[1, 1, 0], [0, 1, 0]]],
    [R = I], [x = 0], [z = (1, 1)]; then [S = [[3, 1], [1, 2]]]. *)
Definition g32 : update_bufs :=
  {| u_x := mem_of [qz 0; qz 0; qz 0];
     u_z := mem_of [qz 1; qz 1];
     u_H := mem_of [qz 1; qz 1; qz 0; qz 0; qz 1; qz 0];
     u_P := diag3 (qz 1) (qz 1) (qz 1);
     u_R := mem_of [qz 1; qz 0; qz 0; qz 1] |}.

Definition Sinv32 : matrix :=
  mat_at (mem_of [qf 2 5; qf (-1) 5; qf (-1) 5; qf 3 5]) 2 2 0.

(** A double-precision value that single precision cannot hold:
    [1 + 2^-30]. *)
Definition one_plus_ulp : fl := {| mant := (2 ^ 30 + 1)%Z; expo := (-30)%Z |}.

(** [dim_x = 2], [dim_z = 1], one tile: the cells of [s_buffer] that
    the gain statement of [_numba_update] reads.  [s_A[0..1]] holds
    [PHT = (3, 5)], [s_B[0]] the inverted innovation covariance [1/2]
    and [s_B[1]] a value left there earlier, [7]. *)
Definition gain_mem : mem :=
  mem_of [qz 3; qz 5; qz 0; qz 0; qf 1 2; qz 7].

(** [dim_x = 2]: [F = [[1, 1], [0, 1]]], [P = I], [Q = 0], [x = (1, 2)],
    [alpha_sq = 1]. *)
Definition gp2 : predict_bufs :=
  {| p_alpha := mem_of [qz 1];
     p_x := mem_of [qz 1; qz 2];
     p_F := mem_of [qz 1; qz 1; qz 0; qz 1];
     p_P := mem_of [qz 1; qz 0; qz 0; qz 1];
     p_Q := mem_of [qz 0; qz 0; qz 0; qz 0] |}.

Definition zero_predict_smem : predict_smem :=
  {| ps_A := zeros; ps_F := zeros |}.

(** The state dimension a built kernel is fixed to, if any. *)
Definition kernel_DIM_X (k : kernel) : option nat :=
  match k with
  | cupy_predict_fn _ d _ _ => Some d
  | cupy_update_fn _ d _ _ _ => Some d
  | numba_jit _ _ => None
  end.

(** CuPy kernels built for single precision with [(dim_x, dim_z) =
    (2, 1)] and then with [(3, 2)]. *)
Definition built_twice : caches :=
  fst (_populate_kernel_cache cp_float32 false 3 2 256 2
         (fst (_populate_kernel_cache cp_float32 false 2 1 256 2
                 empty_caches))).

(** [dim_x = dim_z = 2]: [P = [[2, 1], [1, 3]]], [H = I], [R = I],
    [x = (1, 2)], [z = (3, 5)]; then [S = [[3, 1], [1, 4]]]. *)
Definition g22 : update_bufs :=
  {| u_x := mem_of [qz 1; qz 2];
     u_z := mem_of [qz 3; qz 5];
     u_H := mem_of [qz 1; qz 0; qz 0; qz 1];
     u_P := mem_of [qz 2; qz 1; qz 1; qz 3];
     u_R := mem_of [qz 1; qz 0; qz 0; qz 1] |}.

Definition Sinv22 : matrix :=
  mat_at (mem_of [qf 4 11; qf (-1) 11; qf (-1) 11; qf 3 11]) 2 2 0.

(** [[2, 1, 0], [1, 2, 0], [0, 0, 1]], whose inverse is
    [[2/3, -1/3, 0], [-1/3, 2/3, 0], [0, 0, 1]]. *)
Definition S3 : mem :=
  mem_of [qz 2; qz 1; qz 0; qz 1; qz 2; qz 0; qz 0; qz 0; qz 1].

Definition S3_inv : matrix :=
  mat_at (mem_of [qf 2 3; qf (-1) 3; qz 0; qf (-1) 3; qf 2 3; qz 0;
                  qz 0; qz 0; qz 1]) 3 3 0.

(** Keys that [_populate_kernel_cache] can have stored. *)
Definition populated_keys (m : gmap (string * GPUKernel) kernel) : Prop :=
  forall key k, m !! key = Some k -> exists nt, fst key = numba_str nt.

Definition populated (c : caches) : Prop :=
  populated_keys (_numba_kernel_cache c) /\
  populated_keys (_cupy_kernel_cache c).

(** ** Further definitions used by the properties below *)

Definition det2 (S : matrix) : Qc :=
  let a := S 0 0 in let b := S 0 1 in
  let c := S 1 0 in let d := S 1 1 in
  (a * d - b * c)%Qc.

Definition det3 (S : matrix) : Qc :=
  let a := S 0 0 in let b := S 0 1 in let c := S 0 2 in
  let d := S 1 0 in let e := S 1 1 in let f := S 1 2 in
  let g := S 2 0 in let h := S 2 1 in let i := S 2 2 in
  (a * (e * i - f * h) - b * (d * i - f * g) + c * (d * h - e * g))%Qc.

(** The [n * n] matrix stored row by row from cell [base] of [m]. *)
Definition tile_mat (m : mem) (base n : nat) : matrix :=
  fun r c => m (base + (r * n + c)).

(** [A] with the entries at odd [r + c] negated. *)
Definition checker (A : matrix) : matrix :=
  fun r c => if Nat.eqb ((r + c) mod 2) 0 then A r c else (- A r c)%Qc.

(** The values that [inverse<T, DIM_Z>] returns to the threads of a
    tile when all of them find the same content in [s_B], as a matrix:
    entry [(r, c)] is the value of thread [(tx, ty) = (c, r)], the one
    the kernel stores at [s_B[xx_idx + (r * DIM_Z + c)]]. *)
Definition cupy_inverse_values (DIM_Z idx : nat) (s_B : mem) : matrix :=
  fun r c => Cupy.inverse DIM_Z idx c r s_B.

(** The value [temp] that thread [(x, y)] of [_numba_update] computes
    under "Compute linalg.inv(S)" from the memory [m]. *)
Definition numba_inv_temp (dim_z : nat) (s_B : nat -> nat) (xx_idx : nat)
    (m : mem) (t : thread) : Qc :=
  let x := fst t in
  let y := snd t in
  let sign : Qc :=
    if Nat.eqb ((x + y) mod 2) 0 then 1%Qc else (- (1))%Qc in
  let b00 := m (s_B (xx_idx + (0 * dim_z + 0))) in
  let b11 := m (s_B (xx_idx + (1 * dim_z + 1))) in
  let b10 := m (s_B (xx_idx + (1 * dim_z + 0))) in
  let b01 := m (s_B (xx_idx + (0 * dim_z + 1))) in
  let sign_det := (sign * (b00 * b11 - b10 * b01))%Qc in
  let b := m (s_B (xx_idx + ((dim_z - 1 - x) * dim_z + (dim_z - 1 - y)))) in
  (b / sign_det)%Qc.

(** These values as a matrix: entry [(r, c)] is the value of thread
    [(x, y) = (r, c)], stored at [s_B[xx_idx + (r * dim_z + c)]]. *)
Definition numba_inverse_values (dim_z : nat) (s_B : nat -> nat)
    (xx_idx : nat) (m : mem) : matrix :=
  fun r c => numba_inv_temp dim_z s_B xx_idx m (r, c).


(** ** Thread-by-thread execution of the predict kernels

    Between two barriers the source does not order the threads of a
    tile.  Besides the lockstep execution of the modules [Numba] and
    [Cupy], the threads may as well run the code between two barriers
    one after the other, each to completion: a thread then finds in
    memory what the threads before it have stored. *)

Module Serial.

(** The threads of [sched] run [body] one after the other. *)
Definition run_threads {St : Type} (sched : list thread)
    (body : thread -> St -> St) (st : St) : St :=
  fold_left (fun s t => body t s) sched st.

(** [_numba_predict], thread [(x, y)], up to the first barrier:
    [s_F[xx_idx + x_key] = F[z_idx, x, y]]. *)
Definition numba_predict_stage (dim_x bdim_z tz z_idx : nat) (t : thread)
    (st : predict_bufs * mem) : predict_bufs * mem :=
  let g := fst st in
  let s := snd st in
  let x := fst t in
  let y := snd t in
  let xx_block_size := dim_x * dim_x * bdim_z in
  let xx_idx := dim_x * dim_x * tz in
  let s_F (i : nat) := xx_block_size * 1 + i in
  let x_key := x * dim_x + y in
  (g, upd s (s_F (xx_idx + x_key)) (p_F g (idx3 dim_x dim_x z_idx x y))).

(** Between the two barriers: the new state, then [dot(F, P)]. *)
Definition numba_predict_state (dim_x bdim_z tz z_idx : nat) (t : thread)
    (st : predict_bufs * mem) : predict_bufs * mem :=
  let g := fst st in
  let s := snd st in
  let x := fst t in
  let y := snd t in
  let xx_block_size := dim_x * dim_x * bdim_z in
  let xx_idx := dim_x * dim_x * tz in
  let s_A (i : nat) := i in
  let s_F (i : nat) := xx_block_size * 1 + i in
  let x_key := x * dim_x + y in
  (* if y == 0:
       for j in range(dim_x): temp += s_F[x, j] * x_in[z_idx, j, y]
       x_in[z_idx, x, y] = temp *)
  let x_in :=
    if Nat.eqb y 0 then
      let temp := dot dim_x
                    (fun j => s (s_F (xx_idx + (x * dim_x + j))))
                    (fun j => p_x g (idx3 dim_x 1 z_idx j y)) in
      upd (p_x g) (idx3 dim_x 1 z_idx x y) temp
    else p_x g in
  (* for j in range(dim_x): temp += s_F[x, j] * P[z_idx, j, y]
     s_A[xx_idx + x_key] = temp *)
  let temp := dot dim_x
                (fun j => s (s_F (xx_idx + (x * dim_x + j))))
                (fun j => p_P g (idx3 dim_x dim_x z_idx j y)) in
  ({| p_alpha := p_alpha g; p_x := x_in; p_F := p_F g; p_P := p_P g;
      p_Q := p_Q g |},
   upd s (s_A (xx_idx + x_key)) temp).

(** After the second barrier:
    [P[z_idx, x, y] = alpha_sq * temp + local_Q].  The registers
    [alpha_sq] and [local_Q] were loaded after the first barrier from
    buffers that no thread stores to. *)
Definition numba_predict_cov (dim_x bdim_z tz z_idx : nat) (t : thread)
    (st : predict_bufs * mem) : predict_bufs * mem :=
  let g := fst st in
  let s := snd st in
  let x := fst t in
  let y := snd t in
  let xx_block_size := dim_x * dim_x * bdim_z in
  let xx_idx := dim_x * dim_x * tz in
  let s_A (i : nat) := i in
  let s_F (i : nat) := xx_block_size * 1 + i in
  let alpha_sq := p_alpha g (idx3 1 1 z_idx 0 0) in
  let local_Q := p_Q g (idx3 dim_x dim_x z_idx x y) in
  let temp := dot dim_x
                (fun j => s (s_A (xx_idx + (x * dim_x + j))))
                (fun j => s (s_F (xx_idx + (y * dim_x + j)))) in
  ({| p_alpha := p_alpha g; p_x := p_x g; p_F := p_F g;
      p_P := upd (p_P g) (idx3 dim_x dim_x z_idx x y)
               (alpha_sq * temp + local_Q)%Qc;
      p_Q := p_Q g |}, s).

(** One iteration of the grid-stride loop of [_numba_predict]. *)
Definition numba_predict_instance (dim_x bdim_z : nat)
    (sched : list thread) (tz z_idx : nat) (g : predict_bufs) (s : mem)
    : predict_bufs * mem :=
  let st1 := run_threads sched
               (numba_predict_stage dim_x bdim_z tz z_idx) (g, s) in
  (* syncthreads *)
  let st2 := run_threads sched
               (numba_predict_state dim_x bdim_z tz z_idx) st1 in
  (* syncthreads *)
  run_threads sched (numba_predict_cov dim_x bdim_z tz z_idx) st2.

Definition numba_predict_step (dim_x : nat) (l : launch)
    (sched : list thread) (st : predict_bufs * (nat -> mem)) (z_idx : nat)
    : predict_bufs * (nat -> mem) :=
  let b := block_of l z_idx in
  let r := numba_predict_instance dim_x (bdz l) sched (slot_of l z_idx)
             z_idx (fst st) (snd st b) in
  (fst r, set_block (snd st) b (snd r)).

Definition numba_predict (dim_x : nat) (l : launch) (sched : list thread)
    (N : nat) (g : predict_bufs) (smem : nat -> mem)
    : predict_bufs * (nat -> mem) :=
  fold_left (numba_predict_step dim_x l sched) (seq 0 N) (g, smem).

(** [_cupy_predict], thread [(tx, ty)], up to the first barrier:
    [s_F[xx_idx + x_value] = F[tid_z * DIM_X * DIM_X + ty * DIM_X + tx]]. *)
Definition cupy_predict_stage (DIM_X tz tid_z : nat) (t : thread)
    (st : predict_bufs * predict_smem) : predict_bufs * predict_smem :=
  let g := fst st in
  let s := snd st in
  let tx := fst t in
  let ty := snd t in
  let xx_idx := DIM_X * DIM_X * tz in
  let x_value := ty * DIM_X + tx in
  (g, {| ps_A := ps_A s;
         ps_F := upd (ps_F s) (xx_idx + x_value)
                   (p_F g (tid_z * DIM_X * DIM_X + ty * DIM_X + tx)) |}).

(** Between the two barriers. *)
Definition cupy_predict_state (DIM_X tz tid_z : nat) (t : thread)
    (st : predict_bufs * predict_smem) : predict_bufs * predict_smem :=
  let g := fst st in
  let s := snd st in
  let tx := fst t in
  let ty := snd t in
  let xx_idx := DIM_X * DIM_X * tz in
  let x_value := ty * DIM_X + tx in
  (* if ( tx == 0 ) {
       for j: temp += s_F[xx_idx + (ty * DIM_X + j)] *
                      x_in[tid_z * DIM_X * 1 + j * 1 + tx];
       x_in[tid_z * DIM_X * 1 + ty * 1 + tx] = temp; } *)
  let x_in :=
    if Nat.eqb tx 0 then
      let temp := dot DIM_X
                    (fun j => ps_F s (xx_idx + (ty * DIM_X + j)))
                    (fun j => p_x g (tid_z * DIM_X * 1 + j * 1 + tx)) in
      upd (p_x g) (tid_z * DIM_X * 1 + ty * 1 + tx) temp
    else p_x g in
  (* for j: temp += s_F[xx_idx + (ty * DIM_X + j)] *
                    P[tid_z * DIM_X * DIM_X + j * DIM_X + tx];
     s_A[xx_idx + x_value] = temp; *)
  let temp := dot DIM_X
                (fun j => ps_F s (xx_idx + (ty * DIM_X + j)))
                (fun j => p_P g (tid_z * DIM_X * DIM_X + j * DIM_X + tx)) in
  ({| p_alpha := p_alpha g; p_x := x_in; p_F := p_F g; p_P := p_P g;
      p_Q := p_Q g |},
   {| ps_A := upd (ps_A s) (xx_idx + x_value) temp; ps_F := ps_F s |}).

(** After the second barrier; [alpha2] and [localQ] are registers
    loaded after the first barrier from buffers declared [const]. *)
Definition cupy_predict_cov (DIM_X tz tid_z : nat) (t : thread)
    (st : predict_bufs * predict_smem) : predict_bufs * predict_smem :=
  let g := fst st in
  let s := snd st in
  let tx := fst t in
  let ty := snd t in
  let xx_idx := DIM_X * DIM_X * tz in
  let alpha2 := p_alpha g tid_z in
  let localQ := p_Q g (tid_z * DIM_X * DIM_X + ty * DIM_X + tx) in
  let temp := dot DIM_X
                (fun j => ps_A s (xx_idx + (ty * DIM_X + j)))
                (fun j => ps_F s (xx_idx + (tx * DIM_X + j))) in
  ({| p_alpha := p_alpha g; p_x := p_x g; p_F := p_F g;
      p_P := upd (p_P g) (tid_z * DIM_X * DIM_X + ty * DIM_X + tx)
               (alpha2 * temp + localQ)%Qc;
      p_Q := p_Q g |}, s).

(** One iteration of the grid-stride loop of [_cupy_predict]. *)
Definition cupy_predict_instance (DIM_X : nat) (sched : list thread)
    (tz tid_z : nat) (g : predict_bufs) (s : predict_smem)
    : predict_bufs * predict_smem :=
  let st1 := run_threads sched (cupy_predict_stage DIM_X tz tid_z) (g, s) in
  (* __syncthreads *)
  let st2 := run_threads sched (cupy_predict_state DIM_X tz tid_z) st1 in
  (* __syncthreads *)
  run_threads sched (cupy_predict_cov DIM_X tz tid_z) st2.

Definition cupy_predict_step (DIM_X : nat) (l : launch)
    (sched : list thread) (st : predict_bufs * (nat -> predict_smem))
    (tid_z : nat) : predict_bufs * (nat -> predict_smem) :=
  let b := block_of l tid_z in
  let r := cupy_predict_instance DIM_X sched (slot_of l tid_z) tid_z
             (fst st) (snd st b) in
  (fst r, set_block (snd st) b (snd r)).

Definition cupy_predict (DIM_X : nat) (l : launch) (sched : list thread)
    (num_points : nat) (g : predict_bufs) (smem : nat -> predict_smem)
    : predict_bufs * (nat -> predict_smem) :=
  fold_left (cupy_predict_step DIM_X l sched) (seq 0 num_points) (g, smem).

End Serial.

(** [dim_x = 2]: [F = [[1, 1], [1, 1]]], [P = I], [Q = 0], [x = (1, 2)],
    [alpha_sq = 1]; then [F x = (3, 3)]. *)
Definition gp_ones : predict_bufs :=
  {| p_alpha := mem_of [qz 1];
     p_x := mem_of [qz 1; qz 2];
     p_F := mem_of [qz 1; qz 1; qz 1; qz 1];
     p_P := mem_of [qz 1; qz 0; qz 0; qz 1];
     p_Q := mem_of [qz 0; qz 0; qz 0; qz 0] |}.

(** * Properties *)

(** ** Parallel stores *)

Lemma upd_eq (m : mem) i v : upd m i v i = v.
Proof. unfold upd. now rewrite Nat.eqb_refl. Qed.

Lemma upd_ne (m : mem) i v k : k <> i -> upd m i v k = m k.
Proof. intros H. unfold upd. apply Nat.eqb_neq in H. now rewrite H. Qed.

Lemma par_store_other sched guard idx rhs (m : mem) k :
  (forall t, In t sched -> guard t = true -> idx t <> k) ->
  par_store sched guard idx rhs m k = m k.
Proof.
  revert m. induction sched as [|t rest IH]; intros m H; simpl; [reflexivity|].
  rewrite IH by (intros t' Ht'; apply H; now right).
  destruct (guard t) eqn:G; [|reflexivity].
  apply upd_ne. intros E. apply (H t); auto. now left.
Qed.

Lemma par_store_agree sched guard idx rhs (m : mem) k v :
  (forall t, In t sched -> guard t = true -> idx t = k -> rhs t = v) ->
  (m k = v \/ exists t, In t sched /\ guard t = true /\ idx t = k) ->
  par_store sched guard idx rhs m k = v.
Proof.
  revert m. induction sched as [|t rest IH]; intros m Hv Hw; simpl.
  - destruct Hw as [Hm | (t & [] & _)]. exact Hm.
  - apply IH; [intros t' Ht'; apply Hv; now right|].
    destruct (guard t) eqn:G.
    + destruct (Nat.eq_dec (idx t) k) as [E|E].
      * left. rewrite <- E, upd_eq. apply Hv; auto. now left.
      * rewrite upd_ne by congruence.
        destruct Hw as [Hm | (t' & [Et|Ht'] & G' & E')]; auto.
        -- subst t'. contradiction.
        -- right. exists t'. auto.
    + destruct Hw as [Hm | (t' & [Et|Ht'] & G' & E')]; auto.
      * subst t'. congruence.
      * right. exists t'. auto.
Qed.

(** A cell with a single active writer holds that writer's value. *)
Lemma par_store_hit sched guard idx rhs (m : mem) t :
  In t sched -> guard t = true ->
  (forall t', In t' sched -> guard t' = true -> idx t' = idx t -> t' = t) ->
  par_store sched guard idx rhs m (idx t) = rhs t.
Proof.
  intros Hin G Hinj. apply par_store_agree.
  - intros t' H1 H2 H3. now rewrite (Hinj t' H1 H2 H3).
  - right. exists t. auto.
Qed.

Lemma in_tile dim_x (t : thread) :
  In t (tile dim_x) <-> fst t < dim_x /\ snd t < dim_x.
Proof.
  destruct t as [x y]. unfold tile. simpl.
  split.
  - intros H. apply in_prod_iff in H. rewrite !in_seq in H. lia.
  - intros H. apply in_prod_iff. rewrite !in_seq. lia.
Qed.

Lemma loop_sum_ext n f f' :
  (forall j, j < n -> f j = f' j) -> loop_sum n f = loop_sum n f'.
Proof.
  induction n as [|n IH]; intros H; simpl; [reflexivity|].
  rewrite IH by (intros; apply H; lia). rewrite H by lia. reflexivity.
Qed.

Lemma dot_ext n a a' b b' :
  (forall j, j < n -> a j = a' j) -> (forall j, j < n -> b j = b' j) ->
  dot n a b = dot n a' b'.
Proof.
  intros Ha Hb. unfold dot. apply loop_sum_ext. intros j Hj.
  now rewrite Ha, Hb.
Qed.

Lemma fold_left_inv {S : Type} (step : S -> nat -> S) (Inv : S -> Prop)
    (i : nat) (l : list nat) (s : S) :
  ~ In i l -> Inv s ->
  (forall s j, j <> i -> Inv s -> Inv (step s j)) ->
  Inv (fold_left step l s).
Proof.
  revert s. induction l as [|j l IH]; intros s Hn Hs Hstep; simpl; auto.
  apply IH; auto.
  - intros H. apply Hn. now right.
  - apply Hstep; auto. intros E. apply Hn. now left.
Qed.

Lemma fold_instances {S : Type} (step : S -> nat -> S)
    (Inv Post : S -> Prop) (i N : nat) (s0 : S) :
  i < N -> Inv s0 ->
  (forall s j, j <> i -> Inv s -> Inv (step s j)) ->
  (forall s, Inv s -> Post (step s i)) ->
  (forall s j, j <> i -> Post s -> Post (step s j)) ->
  Post (fold_left step (seq 0 N) s0).
Proof.
  intros Hi H0 Hinv Hself Hpost.
  assert (Hin : In i (seq 0 N)) by (apply in_seq; lia).
  destruct (in_split _ _ Hin) as (l1 & l2 & E).
  pose proof (seq_NoDup N 0) as ND. rewrite E in ND.
  apply NoDup_remove_2 in ND.
  rewrite E, fold_left_app. simpl.
  apply fold_left_inv with (i := i); auto.
  - intros H. apply ND. apply in_or_app. now right.
  - apply Hself. apply fold_left_inv with (i := i); auto.
    intros H. apply ND. apply in_or_app. now left.
Qed.

Lemma par_store_at sched guard idx rhs (m : mem) k t :
  k = idx t -> In t sched -> guard t = true ->
  (forall t', In t' sched -> guard t' = true -> idx t' = idx t -> t' = t) ->
  par_store sched guard idx rhs m k = rhs t.
Proof. intros ->. apply par_store_hit. Qed.

Lemma key_inj d x y x' y' :
  y < d -> y' < d -> x * d + y = x' * d + y' -> x = x' /\ y = y'.
Proof.
  intros Hy Hy' E.
  assert (Hx : x = (x * d + y) / d) by (apply Nat.div_unique with y; lia).
  assert (Hx' : x' = (x * d + y) / d) by (apply Nat.div_unique with y'; lia).
  assert (x = x') by congruence. subst x'. lia.
Qed.

Lemma key_lt d x y : x < d -> y < d -> x * d + y < d * d.
Proof. intros. nia. Qed.

Lemma idx3_inj d1 d2 z a b z' a' b' :
  a < d1 -> a' < d1 -> b < d2 -> b' < d2 ->
  idx3 d1 d2 z a b = idx3 d1 d2 z' a' b' -> z = z' /\ a = a' /\ b = b'.
Proof.
  unfold idx3. intros Ha Ha' Hb Hb' E.
  assert (E1 : (z * d1 + a) * d2 + b = (z' * d1 + a') * d2 + b') by lia.
  apply key_inj in E1; auto. destruct E1 as [E1 E2].
  apply key_inj in E1; auto. lia.
Qed.

Lemma slot_lt l z : 0 < bdz l -> slot_of l z < bdz l.
Proof. intros H. unfold slot_of. apply Nat.mod_upper_bound. lia. Qed.

Lemma slot_cell_lt n tz b k : tz < b -> k < n -> n * tz + k < n * b.
Proof.
  intros Ht Hk.
  assert (n * (tz + 1) <= n * b) by (apply Nat.mul_le_mono_l; lia).
  lia.
Qed.

Ltac guards :=
  repeat match goal with
    | H : (_ && _)%bool = true |- _ => apply andb_prop in H; destruct H
    | H : Nat.eqb _ _ = true |- _ => apply Nat.eqb_eq in H
    | H : Nat.ltb _ _ = true |- _ => apply Nat.ltb_lt in H
    | H : always _ = true |- _ => clear H
    end.

(** ** Predict

    The threads of the predict kernels store to pairwise distinct cells,
    inside the slices of their own tile. *)
Section Predict.

Variables (dim_x : nat) (sched : list thread).
Hypothesis Hsched : forall t, In t sched <-> In t (tile dim_x).

Ltac in_sched := apply Hsched, in_tile; simpl; lia.

Ltac one_writer d x y :=
  let x' := fresh "x'" in let y' := fresh "y'" in
  let H1 := fresh "H1" in let H2 := fresh "H2" in let H3 := fresh "H3" in
  let E := fresh "E" in
  intros [x' y'] H1 H2 H3; apply Hsched in H1; apply in_tile in H1;
  unfold idx3 in *; simpl in *; guards;
  assert (E : x' * d + y' = x * d + y) by lia;
  apply key_inj in E; [f_equal; lia | lia | lia].

Ltac one_writer_c d r c :=
  let x' := fresh "x'" in let y' := fresh "y'" in
  let H1 := fresh "H1" in let H2 := fresh "H2" in let H3 := fresh "H3" in
  let E := fresh "E" in
  intros [x' y'] H1 H2 H3; apply Hsched in H1; apply in_tile in H1;
  unfold idx3 in *; simpl in *; guards;
  assert (E : y' * d + x' = r * d + c) by lia;
  apply key_inj in E; [f_equal; lia | lia | lia].

Ltac no_writer :=
  let x' := fresh "x'" in let y' := fresh "y'" in
  let H1 := fresh "H1" in let H2 := fresh "H2" in
  intros [x' y'] H1 H2; apply Hsched in H1; apply in_tile in H1;
  simpl in *; guards.

Lemma numba_predict_instance_x bdim_z tz z g s row :
  row < dim_x ->
  p_x (fst (Numba.predict_instance dim_x bdim_z sched tz z g s))
      (idx3 dim_x 1 z row 0)
  = dot dim_x (fun j => p_F g (idx3 dim_x dim_x z row j))
              (fun j => p_x g (idx3 dim_x 1 z j 0)).
Proof.
  intros Hr. unfold Numba.predict_instance. cbn [fst p_x].
  rewrite par_store_at with (t := (row, 0));
    [ | reflexivity | in_sched | reflexivity | one_writer 1 row 0 ].
  apply dot_ext; auto. intros j Hj. cbn [fst snd].
  rewrite par_store_at with (t := (row, j));
    [ reflexivity | reflexivity | in_sched | reflexivity
    | one_writer dim_x row j ].
Qed.

Lemma numba_predict_instance_P bdim_z tz z g s row col :
  tz < bdim_z -> row < dim_x -> col < dim_x ->
  p_P (fst (Numba.predict_instance dim_x bdim_z sched tz z g s))
      (idx3 dim_x dim_x z row col)
  = (p_alpha g (idx3 1 1 z 0 0)
     * dot dim_x
         (fun j => dot dim_x (fun k => p_F g (idx3 dim_x dim_x z row k))
                             (fun k => p_P g (idx3 dim_x dim_x z k j)))
         (fun j => p_F g (idx3 dim_x dim_x z col j))
     + p_Q g (idx3 dim_x dim_x z row col))%Qc.
Proof.
  intros Ht Hr Hc. unfold Numba.predict_instance. cbn [fst p_P].
  rewrite par_store_at with (t := (row, col));
    [ | reflexivity | in_sched | reflexivity | one_writer dim_x row col ].
  cbn [fst snd]. f_equal. f_equal. apply dot_ext; intros j Hj.
  - rewrite par_store_at with (t := (row, j));
      [ | reflexivity | in_sched | reflexivity | one_writer dim_x row j ].
    cbn [fst snd]. apply dot_ext; auto. intros k Hk.
    rewrite par_store_at with (t := (row, k));
      [ reflexivity | reflexivity | in_sched | reflexivity
      | one_writer dim_x row k ].
  - rewrite par_store_other.
    + rewrite par_store_at with (t := (col, j));
        [ reflexivity | reflexivity | in_sched | reflexivity
        | one_writer dim_x col j ].
    + no_writer.
      pose proof (key_lt dim_x x' y' ltac:(lia) ltac:(lia)).
      pose proof (slot_cell_lt (dim_x * dim_x) tz bdim_z
                    (x' * dim_x + y') Ht ltac:(lia)).
      lia.
Qed.

Lemma numba_predict_frame_x bdim_z tz z g s z' a :
  z' <> z -> a < dim_x ->
  p_x (fst (Numba.predict_instance dim_x bdim_z sched tz z g s))
      (idx3 dim_x 1 z' a 0)
  = p_x g (idx3 dim_x 1 z' a 0).
Proof.
  intros Hz Ha. unfold Numba.predict_instance. cbn [fst p_x].
  apply par_store_other. no_writer. subst y'. intros E.
  apply idx3_inj in E; lia.
Qed.

Lemma numba_predict_frame_P bdim_z tz z g s z' a b :
  z' <> z -> a < dim_x -> b < dim_x ->
  p_P (fst (Numba.predict_instance dim_x bdim_z sched tz z g s))
      (idx3 dim_x dim_x z' a b)
  = p_P g (idx3 dim_x dim_x z' a b).
Proof.
  intros Hz Ha Hb. unfold Numba.predict_instance. cbn [fst p_P].
  apply par_store_other. no_writer. intros E.
  apply idx3_inj in E; lia.
Qed.

Lemma cupy_predict_instance_x tz z g s row :
  row < dim_x ->
  p_x (fst (Cupy.predict_instance dim_x sched tz z g s))
      (idx3 dim_x 1 z row 0)
  = dot dim_x (fun j => p_F g (idx3 dim_x dim_x z row j))
              (fun j => p_x g (idx3 dim_x 1 z j 0)).
Proof.
  intros Hr. unfold Cupy.predict_instance. cbn [fst p_x].
  rewrite par_store_at with (t := (0, row));
    [ | reflexivity | in_sched | reflexivity | one_writer_c 1 row 0 ].
  apply dot_ext; auto. intros j Hj. cbn [fst snd].
  rewrite par_store_at with (t := (j, row));
    [ reflexivity | reflexivity | in_sched | reflexivity
    | one_writer_c dim_x row j ].
Qed.

Lemma cupy_predict_instance_P tz z g s row col :
  row < dim_x -> col < dim_x ->
  p_P (fst (Cupy.predict_instance dim_x sched tz z g s))
      (idx3 dim_x dim_x z row col)
  = (p_alpha g z
     * dot dim_x
         (fun j => dot dim_x (fun k => p_F g (idx3 dim_x dim_x z row k))
                             (fun k => p_P g (idx3 dim_x dim_x z k j)))
         (fun j => p_F g (idx3 dim_x dim_x z col j))
     + p_Q g (idx3 dim_x dim_x z row col))%Qc.
Proof.
  intros Hr Hc. unfold Cupy.predict_instance. cbn [fst p_P].
  rewrite par_store_at with (t := (col, row));
    [ | reflexivity | in_sched | reflexivity | one_writer_c dim_x row col ].
  cbn [fst snd]. f_equal. f_equal. apply dot_ext; intros j Hj.
  - rewrite par_store_at with (t := (j, row));
      [ | reflexivity | in_sched | reflexivity | one_writer_c dim_x row j ].
    cbn [fst snd]. apply dot_ext; auto. intros k Hk.
    rewrite par_store_at with (t := (k, row));
      [ reflexivity | reflexivity | in_sched | reflexivity
      | one_writer_c dim_x row k ].
  - rewrite par_store_at with (t := (j, col));
      [ reflexivity | reflexivity | in_sched | reflexivity
      | one_writer_c dim_x col j ].
Qed.

Lemma cupy_predict_frame_x tz z g s z' a :
  z' <> z -> a < dim_x ->
  p_x (fst (Cupy.predict_instance dim_x sched tz z g s))
      (idx3 dim_x 1 z' a 0)
  = p_x g (idx3 dim_x 1 z' a 0).
Proof.
  intros Hz Ha. unfold Cupy.predict_instance. cbn [fst p_x].
  apply par_store_other. no_writer. subst x'. intros E.
  apply (idx3_inj dim_x 1 z y' 0 z' a 0) in E; lia.
Qed.

Lemma cupy_predict_frame_P tz z g s z' a b :
  z' <> z -> a < dim_x -> b < dim_x ->
  p_P (fst (Cupy.predict_instance dim_x sched tz z g s))
      (idx3 dim_x dim_x z' a b)
  = p_P g (idx3 dim_x dim_x z' a b).
Proof.
  intros Hz Ha Hb. unfold Cupy.predict_instance. cbn [fst p_P].
  apply par_store_other. no_writer. intros E.
  apply (idx3_inj dim_x dim_x z y' x' z' a b) in E; lia.
Qed.

End Predict.
Lemma alpha_cell z : idx3 1 1 z 0 0 = z.
Proof. unfold idx3. lia. Qed.

Lemma numba_predict_batch dim_x l sched N g smem i :
  (forall t, In t sched <-> In t (tile dim_x)) -> 0 < bdz l -> i < N ->
  predict_done dim_x i g (fst (Numba.predict dim_x l sched N g smem)).
Proof.
  intros Hs Hb Hi. unfold Numba.predict.
  apply fold_instances
    with (Inv := fun st => predict_inputs_kept dim_x i g (fst st))
         (Post := fun st => predict_done dim_x i g (fst st)) (i := i);
    auto.
  - repeat split; auto.
  - intros [g' s'] j Hj (Ha & HF & HQ & Hx & HP).
    unfold Numba.predict_step. cbn [fst snd] in *.
    repeat split; auto; intros.
    + rewrite numba_predict_frame_x; auto.
    + rewrite numba_predict_frame_P; auto.
  - intros [g' s'] (Ha & HF & HQ & Hx & HP).
    unfold Numba.predict_step. cbn [fst snd] in *. split.
    + intros row Hr. unfold vec_at.
      rewrite numba_predict_instance_x; auto.
      unfold kalman_predict_x, mat_vec, mat_at, vec_at. rewrite HF.
      apply dot_ext; auto.
    + intros row col Hr Hc. unfold mat_at at 1.
      rewrite numba_predict_instance_P; auto using slot_lt.
      unfold kalman_predict_P, mat_add, mat_scale, mat_mul, transpose, mat_at.
      rewrite Ha, HF, HQ, alpha_cell. f_equal. f_equal.
      apply dot_ext; auto. intros j Hj. apply dot_ext; auto.
  - intros [g' s'] j Hj [Hx HP].
    unfold Numba.predict_step. cbn [fst snd] in *. split.
    + intros row Hr. unfold vec_at. rewrite numba_predict_frame_x; auto.
      now apply Hx.
    + intros row col Hr Hc. unfold mat_at at 1.
      rewrite numba_predict_frame_P; auto. now apply HP.
Qed.

Lemma cupy_predict_batch dim_x l sched N g smem i :
  (forall t, In t sched <-> In t (tile dim_x)) -> i < N ->
  predict_done dim_x i g (fst (Cupy.predict dim_x l sched N g smem)).
Proof.
  intros Hs Hi. unfold Cupy.predict.
  apply fold_instances
    with (Inv := fun st => predict_inputs_kept dim_x i g (fst st))
         (Post := fun st => predict_done dim_x i g (fst st)) (i := i);
    auto.
  - repeat split; auto.
  - intros [g' s'] j Hj (Ha & HF & HQ & Hx & HP).
    unfold Cupy.predict_step. cbn [fst snd] in *.
    repeat split; auto; intros.
    + rewrite cupy_predict_frame_x; auto.
    + rewrite cupy_predict_frame_P; auto.
  - intros [g' s'] (Ha & HF & HQ & Hx & HP).
    unfold Cupy.predict_step. cbn [fst snd] in *. split.
    + intros row Hr. unfold vec_at.
      rewrite cupy_predict_instance_x; auto.
      unfold kalman_predict_x, mat_vec, mat_at, vec_at. rewrite HF.
      apply dot_ext; auto.
    + intros row col Hr Hc. unfold mat_at at 1.
      rewrite cupy_predict_instance_P; auto.
      unfold kalman_predict_P, mat_add, mat_scale, mat_mul, transpose, mat_at.
      rewrite Ha, HF, HQ. f_equal. f_equal.
      apply dot_ext; auto. intros j Hj. apply dot_ext; auto.
  - intros [g' s'] j Hj [Hx HP].
    unfold Cupy.predict_step. cbn [fst snd] in *. split.
    + intros row Hr. unfold vec_at. rewrite cupy_predict_frame_x; auto.
      now apply Hx.
    + intros row col Hr Hc. unfold mat_at at 1.
      rewrite cupy_predict_frame_P; auto. now apply HP.
Qed.

Lemma sched_of_perm dim_x sched :
  Permutation sched (tile dim_x) ->
  forall t, In t sched <-> In t (tile dim_x).
Proof.
  intros Hp t. split; apply Permutation_in; auto. now apply Permutation_sym.
Qed.

(** The lockstep execution: for every batch size [N], every launch
    geometry, every order in which the threads of a tile commit their
    stores and every instance [i < N], a predict launch of either
    backend in which the threads of a tile execute every statement
    together leaves in [state_i] the product [F_i state_i] and in [P_i]
    the matrix [alpha_sq_i F_i P_i F_i^T + Q_i], both computed from the
    buffers as they were before the call. *)
Lemma lockstep_predict_overwrites_state_and_P
    (dim_x : nat) (l : launch) (sched : list thread) (N : nat)
    (g : predict_bufs) (sn : nat -> mem) (sc : nat -> predict_smem)
    (i row col : nat) :
  Permutation sched (tile dim_x) ->
  0 < bdz l <= 16 -> i < N -> row < dim_x -> col < dim_x ->
  let gn := fst (Numba.predict dim_x l sched N g sn) in
  let gc := fst (Cupy.predict dim_x l sched N g sc) in
  vec_at (p_x gn) dim_x i row = kalman_predict_x dim_x g i row /\
  mat_at (p_P gn) dim_x dim_x i row col = kalman_predict_P dim_x g i row col /\
  vec_at (p_x gc) dim_x i row = kalman_predict_x dim_x g i row /\
  mat_at (p_P gc) dim_x dim_x i row col = kalman_predict_P dim_x g i row col.
Proof.
  intros Hp Hb Hi Hr Hc gn gc.
  pose proof (sched_of_perm _ _ Hp) as Hs.
  destruct (numba_predict_batch dim_x l sched N g sn i Hs) as [Hx HP];
    [lia | lia |].
  destruct (cupy_predict_batch dim_x l sched N g sc i Hs) as [Hx' HP'];
    [lia |].
  repeat split; auto.
Qed.

Lemma lanes_2_perm : Permutation (lanes 2) (tile 2).
Proof. apply perm_skip, perm_swap. Defined.

Lemma lockstep_predict_example :
  let gn := fst (Numba.predict 2 one_tile (lanes 2) 1 gp2 (fun _ => zeros)) in
  let gc := fst (Cupy.predict 2 one_tile (lanes 2) 1 gp2
                   (fun _ => zero_predict_smem)) in
  vec_at (p_x gn) 2 0 0 = kalman_predict_x 2 gp2 0 0 /\
  mat_at (p_P gn) 2 2 0 0 1 = kalman_predict_P 2 gp2 0 0 1 /\
  vec_at (p_x gc) 2 0 0 = kalman_predict_x 2 gp2 0 0 /\
  mat_at (p_P gc) 2 2 0 0 1 = kalman_predict_P 2 gp2 0 0 1.
Proof.
  apply (lockstep_predict_overwrites_state_and_P 2 one_tile (lanes 2) 1 gp2
           (fun _ => zeros) (fun _ => zero_predict_smem) 0 0 1).
  - exact lanes_2_perm.
  - simpl. lia.
  - lia.
  - lia.
  - lia.
Defined.

(** C2 fails at [dim_x = 2] with [F = [[1, 1], [1, 1]]] and state
    [(1, 2)], where [F state = (3, 3)].  No barrier separates the loads
    of [x_in] from the store to [x_in] in either backend.  When the
    threads of the tile run together the kernels leave [(3, 3)]; when
    they run one after the other by increasing lane they leave
    [(3, 5)], the second row being computed from the first row already
    stored, and in the opposite order they leave [(4, 3)].  The
    covariance written back is [alpha_sq F P F^T + Q] in either case. *)
Theorem predict_state_depends_on_thread_order :
  let gl := fst (Numba.predict 2 one_tile (lanes 2) 1 gp_ones
                   (fun _ => zeros)) in
  let gs := fst (Serial.numba_predict 2 one_tile (lanes 2) 1 gp_ones
                   (fun _ => zeros)) in
  let gr := fst (Serial.numba_predict 2 one_tile (rev (lanes 2)) 1 gp_ones
                   (fun _ => zeros)) in
  let cl := fst (Cupy.predict 2 one_tile (lanes 2) 1 gp_ones
                   (fun _ => zero_predict_smem)) in
  let cs := fst (Serial.cupy_predict 2 one_tile (lanes 2) 1 gp_ones
                   (fun _ => zero_predict_smem)) in
  let cr := fst (Serial.cupy_predict 2 one_tile (rev (lanes 2)) 1 gp_ones
                   (fun _ => zero_predict_smem)) in
  (kalman_predict_x 2 gp_ones 0 0 = qz 3 /\
   kalman_predict_x 2 gp_ones 0 1 = qz 3) /\
  (vec_at (p_x gl) 2 0 0 = qz 3 /\ vec_at (p_x gl) 2 0 1 = qz 3) /\
  (vec_at (p_x gs) 2 0 0 = qz 3 /\ vec_at (p_x gs) 2 0 1 = qz 5) /\
  (vec_at (p_x gr) 2 0 0 = qz 4 /\ vec_at (p_x gr) 2 0 1 = qz 3) /\
  (vec_at (p_x cl) 2 0 0 = qz 3 /\ vec_at (p_x cl) 2 0 1 = qz 3) /\
  (vec_at (p_x cs) 2 0 0 = qz 3 /\ vec_at (p_x cs) 2 0 1 = qz 5) /\
  (vec_at (p_x cr) 2 0 0 = qz 4 /\ vec_at (p_x cr) 2 0 1 = qz 3) /\
  vec_at (p_x gs) 2 0 1 <> kalman_predict_x 2 gp_ones 0 1 /\
  vec_at (p_x cs) 2 0 1 <> kalman_predict_x 2 gp_ones 0 1 /\
  (forall r c, r < 2 -> c < 2 ->
     mat_at (p_P gs) 2 2 0 r c = kalman_predict_P 2 gp_ones 0 r c /\
     mat_at (p_P cs) 2 2 0 r c = kalman_predict_P 2 gp_ones 0 r c).
Proof.
  cbv zeta.
  repeat match goal with |- _ /\ _ => split end;
    try (apply Qc_is_canon; vm_compute; reflexivity).
  - intro H. apply (f_equal this) in H. vm_compute in H. discriminate H.
  - intro H. apply (f_equal this) in H. vm_compute in H. discriminate H.
  - intros r c Hr Hc.
    destruct r as [|[|r]]; try (exfalso; lia);
    destruct c as [|[|c]]; try (exfalso; lia);
    split; apply Qc_is_canon; vm_compute; reflexivity.
Qed.

(** ** Read-only inputs *)

Lemma fold_left_keeps {S : Type} (step : S -> nat -> S) (Inv : S -> Prop)
    (l : list nat) (s : S) :
  Inv s -> (forall s j, Inv s -> Inv (step s j)) -> Inv (fold_left step l s).
Proof.
  revert s. induction l as [|j l IH]; intros s Hs Hstep; simpl; auto.
Qed.

(** C10: for every batch, launch geometry and schedule, a predict launch
    of either backend returns the buffers [alpha_sq], [F] and [Q] as it
    found them, and an update launch returns [z], [H] and [R] as it
    found them; only [state] and [P] are stored to. *)
Theorem kernels_leave_inputs_unmodified
    (dim_x dim_z : nat) (l : launch) (sched : list thread) (N : nat)
    (gp : predict_bufs) (gu : update_bufs)
    (sn : nat -> mem) (sp : nat -> predict_smem) (su : nat -> update_smem) :
  let pn := fst (Numba.predict dim_x l sched N gp sn) in
  let pc := fst (Cupy.predict dim_x l sched N gp sp) in
  let un := fst (Numba.update dim_x dim_z l sched N gu sn) in
  let uc := fst (Cupy.update dim_x dim_z l sched N gu su) in
  (p_alpha pn = p_alpha gp /\ p_F pn = p_F gp /\ p_Q pn = p_Q gp) /\
  (p_alpha pc = p_alpha gp /\ p_F pc = p_F gp /\ p_Q pc = p_Q gp) /\
  (u_z un = u_z gu /\ u_H un = u_H gu /\ u_R un = u_R gu) /\
  (u_z uc = u_z gu /\ u_H uc = u_H gu /\ u_R uc = u_R gu).
Proof.
  cbv zeta. unfold Numba.predict, Cupy.predict, Numba.update, Cupy.update.
  repeat apply conj.
  all: match goal with
       | |- ?f (fst (fold_left ?step ?l ?s0)) = ?f ?g =>
           apply (fold_left_keeps step (fun st => f (fst st) = f g));
             [ reflexivity | intros [g' s'] j H; exact H ]
       end.
Qed.

(** ** Update *)

Ltac qc_eval := apply Qc_is_canon; vm_compute; reflexivity.
Ltac qc_differ :=
  let H := fresh in
  intro H; apply (f_equal this) in H; vm_compute in H; discriminate H.

Lemma Sinv33_inverse : is_inverse 3 (innovation_cov 3 3 g33 0) Sinv33.
Proof.
  intros r c Hr Hc.
  destruct r as [|[|[|r]]]; try (exfalso; lia);
  destruct c as [|[|[|c]]]; try (exfalso; lia); split; qc_eval.
Qed.

Lemma Sinv32_inverse : is_inverse 2 (innovation_cov 3 2 g32 0) Sinv32.
Proof.
  intros r c Hr Hc.
  destruct r as [|[|r]]; try (exfalso; lia);
  destruct c as [|[|c]]; try (exfalso; lia); split; qc_eval.
Qed.

Lemma Sinv22_inverse : is_inverse 2 (innovation_cov 2 2 g22 0) Sinv22.
Proof.
  intros r c Hr Hc.
  destruct r as [|[|r]]; try (exfalso; lia);
  destruct c as [|[|c]]; try (exfalso; lia); split; qc_eval.
Qed.

(** On a 2x2 instance both kernels agree with the Kalman update, in
    either store order. *)
Lemma update_2x2_example (sched : list thread) (r c : nat) :
  sched = tile 2 \/ sched = lanes 2 -> r < 2 -> c < 2 ->
  let gn := fst (Numba.update 2 2 one_tile sched 1 g22 (fun _ => zeros)) in
  let gc := fst (Cupy.update 2 2 one_tile sched 1 g22
                   (fun _ => zero_smem)) in
  vec_at (u_x gn) 2 0 r = kalman_update_x 2 2 g22 0 Sinv22 r /\
  mat_at (u_P gn) 2 2 0 r c = kalman_update_P 2 2 g22 0 Sinv22 r c /\
  vec_at (u_x gc) 2 0 r = kalman_update_x 2 2 g22 0 Sinv22 r /\
  mat_at (u_P gc) 2 2 0 r c = kalman_update_P 2 2 g22 0 Sinv22 r c.
Proof.
  intros Hs Hr Hc.
  destruct r as [|[|r]]; try (exfalso; lia);
  destruct c as [|[|c]]; try (exfalso; lia);
  destruct Hs as [-> | ->]; repeat split; qc_eval.
Qed.

(** The 3x3 branch of [inverse] divides the cyclic cofactor, which
    already carries its sign, by [determinant * sign]: the entries with
    [tx + ty] odd come out negated. *)
Lemma cupy_inverse_3x3_sign :
  is_inverse 3 (mat_at S3 3 3 0) S3_inv /\
  S3_inv 0 1 = qf (-1) 3 /\
  Cupy.invert_S 3 (tile 3) 0 S3 1 = qf 1 3.
Proof.
  split; [|split; qc_eval].
  intros r c Hr Hc.
  destruct r as [|[|[|r]]]; try (exfalso; lia);
  destruct c as [|[|[|c]]]; try (exfalso; lia); split; qc_eval.
Qed.

Lemma lanes_3_perm : Permutation (lanes 3) (tile 3).
Proof. apply (bool_decide_unpack _). vm_compute. exact I. Qed.

(** C1, at [dim_x = dim_z = 3] with [P = H = I], [R = diag(1, 2, 3)],
    [x = 0] and [z = (1, 1, 1)]: the innovation covariance
    [diag(2, 3, 4)] is invertible and the Kalman update gives
    [state = (1/2, 1/3, 1/4)], yet the CuPy kernel leaves [state[2] = 0]
    (the gain column 2 is never stored) and the Numba kernel stores
    [state[0] = 2/3] (its inverse is the 2x2 formula). *)
Theorem update_dim_z_3_misses_state :
  is_inverse 3 (innovation_cov 3 3 g33 0) Sinv33 /\
  kalman_update_x 3 3 g33 0 Sinv33 2 = qf 1 4 /\
  vec_at (u_x (fst (Cupy.update 3 3 one_tile (tile 3) 1 g33
                      (fun _ => zero_smem)))) 3 0 2 = 0%Qc /\
  kalman_update_x 3 3 g33 0 Sinv33 0 = qf 1 2 /\
  vec_at (u_x (fst (Numba.update 3 3 one_tile (tile 3) 1 g33
                      (fun _ => zeros)))) 3 0 0 = qf 2 3.
Proof.
  split; [exact Sinv33_inverse|]. repeat split; qc_eval.
Qed.

(** C3, on the same input: from [S = diag(2, 3, 4)] the Numba statement
    stores [2/3] as entry [(0, 0)] of the inverse and the CuPy routine
    [1/2], and the two backends leave different values in [state[0]]. *)
Theorem backends_differ_dim_z_3 :
  Numba.linalg_inv 3 (tile 3) (fun i => i) 0
    (diag3 (qz 2) (qz 3) (qz 4)) 0 = qf 2 3 /\
  Cupy.invert_S 3 (tile 3) 0 (diag3 (qz 2) (qz 3) (qz 4)) 0 = qf 1 2 /\
  vec_at (u_x (fst (Numba.update 3 3 one_tile (tile 3) 1 g33
                      (fun _ => zeros)))) 3 0 0
  <> vec_at (u_x (fst (Cupy.update 3 3 one_tile (tile 3) 1 g33
                      (fun _ => zero_smem)))) 3 0 0.
Proof. split; [qc_eval|]. split; [qc_eval|]. qc_differ. Qed.

(** C4, at [dim_x = 2], [dim_z = 1], with [PHT = (3, 5)], the inverted
    innovation covariance [1/2] and an older value [7] in the next cell
    of [s_B].  Whatever the order of the stores, under the gate
    [y < 2] thread [(1, 1)] stores [35] into the cell after the gain
    tile (in [s_buffer] of a one-tile block that is the first cell of
    [s_R]), which the gate [y < dim_z] does not touch, in both backends;
    and when the stores of the Numba kernel commit by increasing lane,
    thread [(0, 1)] leaves [PHT[0] * s_B[1] = 21] in the cell of
    [K[1, 0]], where the gate [y < dim_z] leaves [PHT[1] / 2 = 5/2]. *)
Theorem gain_gate_2_dim_z_1 (sched : list thread) :
  Permutation sched (tile 2) ->
  let s_A := fun i => i in
  let s_B := fun i => 4 * 1 + i in
  let s_K := fun i => 4 * 3 + 2 + i in
  let K := Numba.kalman_gain 1 sched s_A s_B s_K 0 0 gain_mem in
  let K_spec := Numba.kalman_gain_spec 1 sched s_A s_B s_K 0 0 gain_mem in
  let K_lanes := Numba.kalman_gain 1 (lanes 2) s_A s_B s_K 0 0 gain_mem in
  let cK := Cupy.kalman_gain 1 sched 0 0 (mem_of [qz 3; qz 5])
              (mem_of [qf 1 2; qz 7]) zeros in
  let cK_spec := Cupy.kalman_gain_spec 1 sched 0 0 (mem_of [qz 3; qz 5])
              (mem_of [qf 1 2; qz 7]) zeros in
  (K_spec (s_K 2) = gain_mem (s_K 2) /\ K (s_K 2) = qz 35) /\
  (cK_spec 2 = 0%Qc /\ cK 2 = qz 35) /\
  (K_spec (s_K 1) = qf 5 2 /\ K_lanes (s_K 1) = qz 21).
Proof.
  intros Hp. pose proof (sched_of_perm _ _ Hp) as Hs. cbv zeta.
  assert (Hin : In (1, 1) sched) by (apply Hs, in_tile; simpl; lia).
  assert (Hin0 : In (1, 0) sched) by (apply Hs, in_tile; simpl; lia).
  assert (Hone : forall x y : nat, In (x, y) sched -> x < 2 /\ y < 2)
    by (intros x y H; apply Hs, in_tile in H; exact H).
  repeat apply conj.
  - unfold Numba.kalman_gain_spec. apply par_store_other.
    intros [x y] H1 H2. apply Hone in H1. simpl in *. guards. lia.
  - unfold Numba.kalman_gain.
    rewrite par_store_at with (t := (1, 1));
      [ qc_eval | reflexivity | exact Hin | reflexivity | ].
    intros [x y] H1 H2 H3. apply Hone in H1. simpl in *. f_equal; lia.
  - unfold Cupy.kalman_gain_spec. apply par_store_other.
    intros [x y] H1 H2. apply Hone in H1. simpl in *. guards. lia.
  - unfold Cupy.kalman_gain.
    rewrite par_store_at with (t := (1, 1));
      [ qc_eval | reflexivity | exact Hin | reflexivity | ].
    intros [x y] H1 H2 H3. apply Hone in H1. simpl in *. f_equal; lia.
  - unfold Numba.kalman_gain_spec.
    rewrite par_store_at with (t := (1, 0));
      [ qc_eval | reflexivity | exact Hin0 | reflexivity | ].
    intros [x y] H1 H2 H3. apply Hone in H1. simpl in *. guards.
    f_equal; lia.
  - qc_eval.
Qed.

Lemma gain_gate_2_dim_z_1_witness :
  Numba.kalman_gain 1 (lanes 2) (fun i => i) (fun i => 4 * 1 + i)
    (fun i => 4 * 3 + 2 + i) 0 0 gain_mem (4 * 3 + 2 + 2) = qz 35.
Proof.
  exact (proj2 (proj1 (gain_gate_2_dim_z_1 (lanes 2) lanes_2_perm))).
Defined.

(** C5, at [dim_x = 3], [dim_z = 2] with symmetric [P = I] and [R = I]
    and invertible [S = [[3, 1], [1, 2]]]: when the stores of the Numba
    kernel commit by increasing lane, the covariance written back has
    [P[0, 1] = -1/5] and [P[1, 0] = -7/25]; when they commit in the
    order of [tile] it has [P[0, 1] = P[1, 0] = -1/5], and in that
    order it is the CuPy kernel that writes back [-1/5] and [-7/25]. *)
Theorem update_P_not_symmetric :
  symmetric 3 (mat_at (u_P g32) 3 3 0) /\
  symmetric 2 (mat_at (u_R g32) 2 2 0) /\
  is_inverse 2 (innovation_cov 3 2 g32 0) Sinv32 /\
  Permutation (lanes 3) (tile 3) /\
  let P' := mat_at (u_P (fst (Numba.update 3 2 one_tile (lanes 3) 1 g32
                                (fun _ => zeros)))) 3 3 0 in
  let P'' := mat_at (u_P (fst (Numba.update 3 2 one_tile (tile 3) 1 g32
                                 (fun _ => zeros)))) 3 3 0 in
  let Pc := mat_at (u_P (fst (Cupy.update 3 2 one_tile (tile 3) 1 g32
                                (fun _ => zero_smem)))) 3 3 0 in
  (P' 0 1 = qf (-1) 5 /\ P' 1 0 = qf (-7) 25) /\
  (P'' 0 1 = qf (-1) 5 /\ P'' 1 0 = qf (-1) 5) /\
  (Pc 0 1 = qf (-1) 5 /\ Pc 1 0 = qf (-7) 25).
Proof.
  split; [|split; [|split; [exact Sinv32_inverse|split; [exact lanes_3_perm|]]]].
  - intros r c Hr Hc.
    destruct r as [|[|[|r]]]; try (exfalso; lia);
    destruct c as [|[|[|c]]]; try (exfalso; lia); qc_eval.
  - intros r c Hr Hc.
    destruct r as [|[|r]]; try (exfalso; lia);
    destruct c as [|[|c]]; try (exfalso; lia); qc_eval.
  - repeat split; qc_eval.
Qed.

(** C6, at [dim_z = 1]: the CuPy routine [inverse] returns 0 whatever the
    matrix is, so [s = 2] is overwritten with [0]; the Numba statement
    divides [s] by [s * s_B[2] - s_B[1] * s_B[1]], here [2 / (2 * 1 - 0)
    = 1]. *)
Theorem inverse_dim_z_1 :
  (forall idx tx ty s_B, Cupy.inverse 1 idx tx ty s_B = 0%Qc) /\
  Cupy.invert_S 1 (tile 2) 0 (mem_of [qz 2]) 0 = 0%Qc /\
  Numba.linalg_inv 1 (tile 2) (fun i => 4 * 1 + i) 0
    (mem_of [qz 0; qz 0; qz 0; qz 0; qz 2; qz 0; qz 1; qz 0]) 4 = qz 1.
Proof.
  split; [reflexivity|]. split; qc_eval.
Qed.


(** ** Element type of the shared tiles *)

(** C7, for a Numba kernel compiled for double precision: the tiles are
    single precision, so the double [1 + 2^-30] read from an input
    buffer is staged as [1]; the CuPy kernel stages it unchanged. *)
Theorem numba_double_staged_in_single :
  representable nb_float64 one_plus_ulp /\
  numba_smem_dtype nb_float64 = nb_float32 /\
  fl_val (numba_stage nb_float64 one_plus_ulp) = qz 1 /\
  fl_val one_plus_ulp <> qz 1 /\
  cupy_stage nb_float64 one_plus_ulp = one_plus_ulp.
Proof.
  split; [unfold representable; vm_compute; reflexivity|].
  split; [reflexivity|]. split; [qc_eval|]. split; [qc_differ|].
  reflexivity.
Qed.


(** ** Kernel cache *)

(** C8 fails: after the two builds no entry of the CuPy cache is a
    kernel fixed to [dim_x = 2]. *)
Lemma first_build_not_retrievable :
  ~ (exists key k, _cupy_kernel_cache built_twice !! key = Some k
                   /\ kernel_DIM_X k = Some 2).
Proof.
  intros (key & k & Hk & Hd).
  unfold built_twice, _populate_kernel_cache, empty_caches in Hk.
  cbn [_SUPPORTED_TYPES subscript try_except_ValueError negb fst
       _cupy_kernel_cache _numba_kernel_cache numba_str] in Hk.
  apply lookup_insert_Some in Hk.
  destruct Hk as [[_ <-] | [Hu Hk]]; [discriminate Hd|].
  apply lookup_insert_Some in Hk.
  destruct Hk as [[_ <-] | [Hp Hk]]; [discriminate Hd|].
  rewrite lookup_insert_ne in Hk by congruence.
  rewrite lookup_insert_ne in Hk by congruence.
  rewrite lookup_empty in Hk. discriminate Hk.
Qed.

Lemma supported_name np_ty nt ct :
  _SUPPORTED_TYPES np_ty = Some (nt, ct) -> dtype_name np_ty = numba_str nt.
Proof. destruct np_ty; simpl; intros H; inversion H; reflexivity. Qed.

Lemma insert2_twice {V} (m : gmap (string * GPUKernel) V)
    (s : string) (a b a' b' : V) :
  <[(s, UPDATE) := b']> (<[(s, PREDICT) := a']>
     (<[(s, UPDATE) := b]> (<[(s, PREDICT) := a]> m)))
  = <[(s, UPDATE) := b']> (<[(s, PREDICT) := a']> m).
Proof.
  apply map_eq. intros key.
  destruct (decide (key = (s, UPDATE))) as [->|Hu].
  - now rewrite !lookup_insert_eq.
  - rewrite !(lookup_insert_ne _ (s, UPDATE)) by congruence.
    destruct (decide (key = (s, PREDICT))) as [->|Hp].
    + now rewrite !lookup_insert_eq.
    + rewrite !(lookup_insert_ne _ (s, PREDICT)) by congruence.
      rewrite !lookup_insert_ne by congruence. reflexivity.
Qed.

(** C8, amended: the caches are keyed by precision name and kernel kind
    only.  A second build for the same precision and strategy leaves
    the caches as the second build alone would have, and a request for
    that precision returns the kernels of the second build. *)
Theorem second_build_replaces_first
    (np_ty : np_type) (use_numba : bool)
    (x1 z1 t1 b1 x2 z2 t2 b2 : nat) (c : caches)
    (nt : numba_type) (ct : string) :
  _SUPPORTED_TYPES np_ty = Some (nt, ct) ->
  let c1 := fst (_populate_kernel_cache np_ty use_numba x1 z1 t1 b1 c) in
  let c2 := fst (_populate_kernel_cache np_ty use_numba x2 z2 t2 b2 c1) in
  c2 = fst (_populate_kernel_cache np_ty use_numba x2 z2 t2 b2 c) /\
  _get_backend_kernel np_ty use_numba PREDICT c2
  = Ok (if use_numba then numba_jit PREDICT nt
        else cupy_predict_fn ct x2 t2 b2) /\
  _get_backend_kernel np_ty use_numba UPDATE c2
  = Ok (if use_numba then numba_jit UPDATE nt
        else cupy_update_fn ct x2 z2 t2 b2).
Proof.
  intros Hs c1 c2. pose proof (supported_name _ _ _ Hs) as Hn.
  subst c1 c2. unfold _populate_kernel_cache, _get_backend_kernel.
  rewrite Hs, Hn. destruct use_numba; simpl.
  - rewrite insert2_twice. repeat split.
    + rewrite lookup_insert_ne by congruence. now rewrite lookup_insert_eq.
    + now rewrite lookup_insert_eq.
  - rewrite insert2_twice. repeat split.
    + rewrite lookup_insert_ne by congruence. now rewrite lookup_insert_eq.
    + now rewrite lookup_insert_eq.
Qed.

Lemma second_build_replaces_first_witness :
  _SUPPORTED_TYPES cp_float32 = Some (nb_float32, "float"%string) /\
  _get_backend_kernel cp_float32 false PREDICT built_twice
  = Ok (cupy_predict_fn "float" 3 256 2).
Proof.
  split; [reflexivity|].
  exact (proj1 (proj2 (second_build_replaces_first cp_float32 false
                         2 1 256 2 3 2 256 2 empty_caches nb_float32
                         "float"%string eq_refl))).
Defined.

Lemma populated_keys_insert m nt kind k :
  populated_keys m -> populated_keys (<[(numba_str nt, kind) := k]> m).
Proof.
  intros Hm key k' H. apply lookup_insert_Some in H.
  destruct H as [[<- _] | [_ H]]; [exists nt; reflexivity | eauto].
Qed.

Lemma populated_empty : populated empty_caches.
Proof.
  unfold populated, empty_caches.
  cbn [_numba_kernel_cache _cupy_kernel_cache].
  split; intros key k H; rewrite lookup_empty in H; discriminate H.
Qed.

Lemma populate_populated np_ty use_numba dim_x dim_z max_tpb min_bpsm c :
  populated c ->
  populated (fst (_populate_kernel_cache np_ty use_numba dim_x dim_z
                    max_tpb min_bpsm c)).
Proof.
  intros [Hn Hc]. unfold _populate_kernel_cache.
  destruct (_SUPPORTED_TYPES np_ty) as [[nt ct]|]; simpl; [|split; auto].
  destruct use_numba; simpl; split; auto;
    now repeat apply populated_keys_insert.
Qed.

Lemma unsupported_name np_ty nt :
  _SUPPORTED_TYPES np_ty = None -> dtype_name np_ty <> numba_str nt.
Proof. destruct np_ty, nt; simpl; intros H; congruence. Qed.

(** C9, for every element type that [_SUPPORTED_TYPES] does not list and
    whatever has been built before: building leaves both caches as they
    were and raises [KeyError], not the exception with the text "No
    kernel found for datatype"; a request for such a type raises
    [KeyError] as well. *)
Theorem unsupported_type_raises_KeyError
    (np_ty : np_type) (use_numba : bool) (dim_x dim_z max_tpb min_bpsm : nat)
    (k_type : GPUKernel) (c : caches) :
  _SUPPORTED_TYPES np_ty = None -> populated c ->
  _populate_kernel_cache np_ty use_numba dim_x dim_z max_tpb min_bpsm c
  = (c, Raise KeyError) /\
  _get_backend_kernel np_ty use_numba k_type c = Raise KeyError.
Proof.
  intros Hs [Hn Hc]. unfold _populate_kernel_cache. rewrite Hs. simpl.
  split; [reflexivity|]. unfold _get_backend_kernel.
  destruct use_numba; simpl.
  - destruct (_numba_kernel_cache c !! (dtype_name np_ty, k_type)) eqn:E;
      [|reflexivity].
    destruct (Hn _ _ E) as [nt Hnt]. simpl in Hnt.
    now apply unsupported_name with (nt := nt) in Hs.
  - destruct (_cupy_kernel_cache c !! (dtype_name np_ty, k_type)) eqn:E;
      [|reflexivity].
    destruct (Hc _ _ E) as [nt Hnt]. simpl in Hnt.
    now apply unsupported_name with (nt := nt) in Hs.
Qed.

Lemma unsupported_type_raises_KeyError_witness :
  _SUPPORTED_TYPES cp_int32 = None /\ populated built_twice /\
  _populate_kernel_cache cp_int32 false 2 1 256 2 built_twice
  = (built_twice, Raise KeyError) /\
  _get_backend_kernel cp_int32 false PREDICT built_twice = Raise KeyError.
Proof.
  assert (Hp : populated built_twice)
    by (unfold built_twice; do 2 apply populate_populated;
        exact populated_empty).
  split; [reflexivity|]. split; [exact Hp|].
  exact (unsupported_type_raises_KeyError cp_int32 false 2 1 256 2
           PREDICT built_twice eq_refl Hp).
Defined.
(** * Further properties *)

(** ** The inverse statements

    X1 to X3 are about the values the threads of a tile compute from
    one and the same content of [s_B].  The source has no barrier
    between the reads of a thread and the stores of the others, so they
    say nothing of what [s_B] holds after the statement. *)

Ltac nonzero_by H :=
  repeat split;
  try discriminate;
  try (let H0 := fresh in intro H0; apply H; rewrite <- H0; ring).

(** The inversion statement of [Numba.linalg_inv] stores the values
    [numba_inv_temp]. *)
Lemma numba_linalg_inv_temp dim_z sched s_B xx_idx m :
  Numba.linalg_inv dim_z sched s_B xx_idx m
  = par_store sched
      (fun t => Nat.ltb (fst t) dim_z && Nat.ltb (snd t) dim_z)
      (fun t => s_B (xx_idx + (fst t * dim_z + snd t)))
      (numba_inv_temp dim_z s_B xx_idx m) m.
Proof. reflexivity. Qed.

(** The statement of [Cupy.invert_S] stores the values
    [cupy_inverse_values]. *)
Lemma cupy_invert_S_values DIM_Z sched xx_idx s_B :
  Cupy.invert_S DIM_Z sched xx_idx s_B
  = par_store sched
      (fun t => Nat.ltb (fst t) DIM_Z && Nat.ltb (snd t) DIM_Z)
      (fun t => xx_idx + (snd t * DIM_Z + fst t))
      (fun t => cupy_inverse_values DIM_Z xx_idx s_B (snd t) (fst t)) s_B.
Proof. reflexivity. Qed.

(** X1: in exact arithmetic, the values that [inverse<T, 2>] returns to
    the threads of a tile from a 2x2 matrix of non-zero determinant
    held at [s_B[idx ..]] are the entries of its inverse. *)
Theorem cupy_inverse_2x2_values (idx : nat) (s_B : mem) :
  det2 (tile_mat s_B idx 2) <> 0%Qc ->
  is_inverse 2 (tile_mat s_B idx 2) (cupy_inverse_values 2 idx s_B).
Proof.
  intros Hdet. unfold det2, tile_mat in Hdet. simpl in Hdet.
  intros r c Hr Hc.
  unfold mat_mul, dot, tile_mat, identity, cupy_inverse_values, Cupy.inverse.
  destruct r as [|[|r]]; try (exfalso; lia);
  destruct c as [|[|c]]; try (exfalso; lia); simpl;
  set (a := s_B (idx + 0)) in *; set (b := s_B (idx + 1)) in *;
  set (c' := s_B (idx + 2)) in *; set (d := s_B (idx + 3)) in *;
  clearbody a b c' d; split; field; nonzero_by Hdet.
Qed.

Lemma cupy_inverse_2x2_values_witness :
  is_inverse 2 (tile_mat (mem_of [qz 2; qz 1; qz 1; qz 3]) 0 2)
    (cupy_inverse_values 2 0 (mem_of [qz 2; qz 1; qz 1; qz 3])).
Proof.
  apply (cupy_inverse_2x2_values 0 (mem_of [qz 2; qz 1; qz 1; qz 3])).
  intro H. discriminate H.
Defined.

(** X2: in exact arithmetic, the values that the threads of a tile
    compute under "Compute linalg.inv(S)" of [_numba_update] from a 2x2
    matrix [S] of non-zero determinant are the entries of the inverse
    of the transpose of [S]; they are the entries of the inverse of [S]
    when [S] is symmetric. *)
Theorem numba_inverse_2x2_values (s_B : nat -> nat) (xx_idx : nat)
    (m : mem) :
  det2 (tile_mat (fun i => m (s_B i)) xx_idx 2) <> 0%Qc ->
  let S := tile_mat (fun i => m (s_B i)) xx_idx 2 in
  let M := numba_inverse_values 2 s_B xx_idx m in
  is_inverse 2 (transpose S) M /\
  (symmetric 2 S -> is_inverse 2 S M).
Proof.
  intros Hdet S M. unfold det2, tile_mat in Hdet. simpl in Hdet.
  assert (HT : is_inverse 2 (transpose S) M).
  { intros r c Hr Hc. subst S M.
    unfold mat_mul, dot, transpose, tile_mat, identity,
      numba_inverse_values, numba_inv_temp.
    destruct r as [|[|r]]; try (exfalso; lia);
    destruct c as [|[|c]]; try (exfalso; lia); simpl;
    set (a := m (s_B (xx_idx + 0))) in *;
    set (b := m (s_B (xx_idx + 1))) in *;
    set (c' := m (s_B (xx_idx + 2))) in *;
    set (d := m (s_B (xx_idx + 3))) in *;
    clearbody a b c' d; split; field; nonzero_by Hdet. }
  split; [exact HT|].
  intros Hsym r c Hr Hc. destruct (HT r c Hr Hc) as [H1 H2]. split.
  - rewrite <- H1. unfold mat_mul, transpose.
    apply dot_ext; [|reflexivity]. intros j Hj. apply Hsym; lia.
  - rewrite <- H2. unfold mat_mul, transpose.
    apply dot_ext; [reflexivity|]. intros j Hj. apply Hsym; lia.
Qed.

Lemma numba_inverse_2x2_values_witness :
  is_inverse 2
    (transpose
       (tile_mat (fun i => mem_of [qz 2; qz 1; qz 0; qz 3] (0 + i)) 0 2))
    (numba_inverse_values 2 (fun i => 0 + i) 0
       (mem_of [qz 2; qz 1; qz 0; qz 3])).
Proof.
  apply (numba_inverse_2x2_values (fun i => 0 + i) 0
           (mem_of [qz 2; qz 1; qz 0; qz 3])).
  intro H. discriminate H.
Defined.

(** X3: in exact arithmetic, the values that [inverse<T, 3>] returns to
    the threads of a tile from a 3x3 matrix of non-zero determinant are
    the entries of its inverse except that those at odd [tx + ty] carry
    the opposite sign. *)
Theorem cupy_inverse_3x3_values (idx : nat) (s_B : mem) :
  det3 (tile_mat s_B idx 3) <> 0%Qc ->
  is_inverse 3 (tile_mat s_B idx 3)
    (checker (cupy_inverse_values 3 idx s_B)).
Proof.
  intros Hdet. unfold det3, tile_mat in Hdet. simpl in Hdet.
  intros r c Hr Hc.
  unfold mat_mul, dot, checker, tile_mat, identity, cupy_inverse_values,
    Cupy.inverse.
  destruct r as [|[|[|r]]]; try (exfalso; lia);
  destruct c as [|[|[|c]]]; try (exfalso; lia); simpl;
  set (a0 := s_B (idx + 0)) in *; set (a1 := s_B (idx + 1)) in *;
  set (a2 := s_B (idx + 2)) in *; set (a3 := s_B (idx + 3)) in *;
  set (a4 := s_B (idx + 4)) in *; set (a5 := s_B (idx + 5)) in *;
  set (a6 := s_B (idx + 6)) in *; set (a7 := s_B (idx + 7)) in *;
  set (a8 := s_B (idx + 8)) in *;
  clearbody a0 a1 a2 a3 a4 a5 a6 a7 a8; split; field; nonzero_by Hdet.
Qed.

Lemma cupy_inverse_3x3_values_witness :
  is_inverse 3 (tile_mat S3 0 3) (checker (cupy_inverse_values 3 0 S3)).
Proof.
  apply (cupy_inverse_3x3_values 0 S3).
  intro H. discriminate H.
Defined.

Lemma cupy_invert_S_outside DIM_Z dim_x sched xx_idx s_B k :
  (forall t, In t sched <-> In t (tile dim_x)) ->
  k < xx_idx \/ xx_idx + DIM_Z * DIM_Z <= k ->
  Cupy.invert_S DIM_Z sched xx_idx s_B k = s_B k.
Proof.
  intros Hp Hk. unfold Cupy.invert_S. apply par_store_other.
  intros [x y] H1 H2. simpl in *. guards.
  pose proof (key_lt DIM_Z y x ltac:(lia) ltac:(lia)). lia.
Qed.

Lemma numba_linalg_inv_outside dim_z dim_x sched off xx_idx m k :
  (forall t, In t sched <-> In t (tile dim_x)) ->
  k < off + xx_idx \/ off + xx_idx + dim_z * dim_z <= k ->
  Numba.linalg_inv dim_z sched (fun i => off + i) xx_idx m k = m k.
Proof.
  intros Hp Hk. unfold Numba.linalg_inv. apply par_store_other.
  intros [x y] H1 H2. simpl in *. guards.
  pose proof (key_lt dim_z x y ltac:(lia) ltac:(lia)). lia.
Qed.

(** X4: the inverse statement of either backend stores only to the
    [dim_z * dim_z] cells of the matrix it inverts. *)
Theorem inverse_stores_in_place (dim_z dim_x : nat) (sched : list thread)
    (off xx_idx : nat) (m : mem) (k : nat) :
  Permutation sched (tile dim_x) ->
  k < off + xx_idx \/ off + xx_idx + dim_z * dim_z <= k ->
  Numba.linalg_inv dim_z sched (fun i => off + i) xx_idx m k = m k /\
  Cupy.invert_S dim_z sched (off + xx_idx) m k = m k.
Proof.
  intros Hp Hk. pose proof (sched_of_perm _ _ Hp) as Hs. split.
  - now apply (numba_linalg_inv_outside dim_z dim_x).
  - now apply (cupy_invert_S_outside dim_z dim_x).
Qed.

Lemma inverse_stores_in_place_witness :
  Numba.linalg_inv 2 (tile 2) (fun i => 4 + i) 0 zeros 8 = zeros 8 /\
  Cupy.invert_S 2 (tile 2) (4 + 0) zeros 8 = zeros 8.
Proof.
  apply (inverse_stores_in_place 2 2 (tile 2) 4 0 zeros 8).
  - apply Permutation_refl.
  - right. simpl. lia.
Defined.

(** ** Cells of the global buffers that a grid-stride iteration stores to *)

(** Names the next [let] of the goal, so that the statements of a kernel
    can be followed one at a time. *)
Ltac peel_let :=
  match goal with
  | |- context C [let x := ?v in @?b x] =>
      let x' := fresh x in pose (x' := v);
      let g := context C [b x'] in change g; cbv beta
  end.

Section Footprint.

Variables (dim_x : nat) (sched : list thread).
Hypothesis Hsched : forall t, In t sched <-> In t (tile dim_x).

Ltac foreign_cell Hk :=
  let x' := fresh "x'" in let y' := fresh "y'" in
  let H1 := fresh "H1" in let H2 := fresh "H2" in let E := fresh "E" in
  intros [x' y'] H1 H2 E; apply Hsched in H1; apply in_tile in H1;
  simpl in *; guards;
  unfold idx3 in *;
  first [ apply (Hk x' y'); [lia | lia | lia]
        | apply (Hk y' x'); [lia | lia | lia]
        | apply (Hk x'); [lia | lia]
        | apply (Hk y'); [lia | lia] ].

Lemma numba_predict_footprint_x bdim_z tz z g s k :
  (forall a, a < dim_x -> k <> idx3 dim_x 1 z a 0) ->
  p_x (fst (Numba.predict_instance dim_x bdim_z sched tz z g s)) k = p_x g k.
Proof.
  intros Hk. unfold Numba.predict_instance. cbn [fst p_x p_P].
  apply par_store_other. foreign_cell Hk.
Qed.

Lemma numba_predict_footprint_P bdim_z tz z g s k :
  (forall a b, a < dim_x -> b < dim_x -> k <> idx3 dim_x dim_x z a b) ->
  p_P (fst (Numba.predict_instance dim_x bdim_z sched tz z g s)) k = p_P g k.
Proof.
  intros Hk. unfold Numba.predict_instance. cbn [fst p_x p_P].
  apply par_store_other. foreign_cell Hk.
Qed.

Lemma cupy_predict_footprint_x tz z g s k :
  (forall a, a < dim_x -> k <> idx3 dim_x 1 z a 0) ->
  p_x (fst (Cupy.predict_instance dim_x sched tz z g s)) k = p_x g k.
Proof.
  intros Hk. unfold Cupy.predict_instance. cbn [fst p_x p_P].
  apply par_store_other. foreign_cell Hk.
Qed.

Lemma cupy_predict_footprint_P tz z g s k :
  (forall a b, a < dim_x -> b < dim_x -> k <> idx3 dim_x dim_x z a b) ->
  p_P (fst (Cupy.predict_instance dim_x sched tz z g s)) k = p_P g k.
Proof.
  intros Hk. unfold Cupy.predict_instance. cbn [fst p_x p_P].
  apply par_store_other. foreign_cell Hk.
Qed.

Lemma numba_update_footprint_x dim_z bdim_z tz z g s k :
  (forall a, a < dim_x -> k <> idx3 dim_x 1 z a 0) ->
  u_x (fst (Numba.update_instance dim_x dim_z bdim_z sched tz z g s)) k
  = u_x g k.
Proof.
  intros Hk. cbv beta delta [Numba.update_instance]. repeat peel_let.
  cbn [fst u_x u_P].
  subst x1. apply par_store_other. subst y_is_0. foreign_cell Hk.
Qed.

Lemma numba_update_footprint_P dim_z bdim_z tz z g s k :
  (forall a b, a < dim_x -> b < dim_x -> k <> idx3 dim_x dim_x z a b) ->
  u_P (fst (Numba.update_instance dim_x dim_z bdim_z sched tz z g s)) k
  = u_P g k.
Proof.
  intros Hk. cbv beta delta [Numba.update_instance]. repeat peel_let.
  cbn [fst u_x u_P].
  subst P1. apply par_store_other. foreign_cell Hk.
Qed.

Lemma cupy_update_footprint_x dim_z tz z g s k :
  (forall a, a < dim_x -> k <> idx3 dim_x 1 z a 0) ->
  u_x (fst (Cupy.update_instance dim_x dim_z sched tz z g s)) k = u_x g k.
Proof.
  intros Hk. cbv beta delta [Cupy.update_instance]. repeat peel_let.
  cbn [fst u_x u_P].
  subst x1. apply par_store_other. subst tx_is_0. foreign_cell Hk.
Qed.

Lemma cupy_update_footprint_P dim_z tz z g s k :
  (forall a b, a < dim_x -> b < dim_x -> k <> idx3 dim_x dim_x z a b) ->
  u_P (fst (Cupy.update_instance dim_x dim_z sched tz z g s)) k = u_P g k.
Proof.
  intros Hk. cbv beta delta [Cupy.update_instance]. repeat peel_let.
  cbn [fst u_x u_P].
  subst P1. apply par_store_other. foreign_cell Hk.
Qed.

End Footprint.

(** ** Launches *)

Lemma fold_left_keeps_in {S : Type} (step : S -> nat -> S) (Inv : S -> Prop)
    (l : list nat) (s : S) :
  Inv s -> (forall s j, In j l -> Inv s -> Inv (step s j)) ->
  Inv (fold_left step l s).
Proof.
  revert s. induction l as [|j l IH]; intros s Hs Hstep; simpl; auto.
  apply IH.
  - apply Hstep; auto. now left.
  - intros s' j' Hin. apply Hstep. now right.
Qed.

Lemma x_cell_in_batch dim_x N j a k :
  j < N -> a < dim_x -> N * dim_x <= k -> k <> idx3 dim_x 1 j a 0.
Proof.
  intros Hj Ha Hk. unfold idx3.
  assert ((j + 1) * dim_x <= N * dim_x) by (apply Nat.mul_le_mono_r; lia).
  lia.
Qed.

Lemma P_cell_in_batch dim_x N j a b k :
  j < N -> a < dim_x -> b < dim_x -> N * dim_x * dim_x <= k ->
  k <> idx3 dim_x dim_x j a b.
Proof.
  intros Hj Ha Hb Hk. unfold idx3.
  assert ((j + 1) * (dim_x * dim_x) <= N * (dim_x * dim_x))
    by (apply Nat.mul_le_mono_r; lia).
  pose proof (key_lt dim_x a b Ha Hb). lia.
Qed.



(** X9: a launch over a batch of [N] instances stores to no cell of the
    state buffer from [N * dim_x] on and to no cell of [P] from
    [N * dim_x * dim_x] on, in either kernel of either backend, for
    every [dim_z], launch geometry and order of the stores. *)
Theorem launch_stores_inside_batch (dim_x dim_z : nat) (l : launch)
    (sched : list thread) (N : nat) (gp : predict_bufs) (gu : update_bufs)
    (sn : nat -> mem) (sp : nat -> predict_smem) (su : nat -> update_smem)
    (kx kP : nat) :
  Permutation sched (tile dim_x) -> 0 < bdz l <= 16 ->
  N * dim_x <= kx -> N * dim_x * dim_x <= kP ->
  let pn := fst (Numba.predict dim_x l sched N gp sn) in
  let pc := fst (Cupy.predict dim_x l sched N gp sp) in
  let un := fst (Numba.update dim_x dim_z l sched N gu sn) in
  let uc := fst (Cupy.update dim_x dim_z l sched N gu su) in
  (p_x pn kx = p_x gp kx /\ p_P pn kP = p_P gp kP) /\
  (p_x pc kx = p_x gp kx /\ p_P pc kP = p_P gp kP) /\
  (u_x un kx = u_x gu kx /\ u_P un kP = u_P gu kP) /\
  (u_x uc kx = u_x gu kx /\ u_P uc kP = u_P gu kP).
Proof.
  intros Hp _ Hx HP. cbv zeta. pose proof (sched_of_perm _ _ Hp) as Hs.
  unfold Numba.predict, Cupy.predict, Numba.update, Cupy.update.
  repeat apply conj.
  all: match goal with
       | |- ?f (fst (fold_left ?step ?l ?s0)) ?k = ?f ?g ?k =>
           apply (fold_left_keeps_in step (fun st => f (fst st) k = f g k));
             [ reflexivity | intros [g' s'] j Hj H; rewrite <- H ]
       end.
  all: apply in_seq in Hj.
  - apply (numba_predict_footprint_x dim_x sched Hs).
    intros a Ha. apply x_cell_in_batch with N; auto; lia.
  - apply (numba_predict_footprint_P dim_x sched Hs).
    intros a b Ha Hb. apply P_cell_in_batch with N; auto; lia.
  - apply (cupy_predict_footprint_x dim_x sched Hs).
    intros a Ha. apply x_cell_in_batch with N; auto; lia.
  - apply (cupy_predict_footprint_P dim_x sched Hs).
    intros a b Ha Hb. apply P_cell_in_batch with N; auto; lia.
  - apply (numba_update_footprint_x dim_x sched Hs).
    intros a Ha. apply x_cell_in_batch with N; auto; lia.
  - apply (numba_update_footprint_P dim_x sched Hs).
    intros a b Ha Hb. apply P_cell_in_batch with N; auto; lia.
  - apply (cupy_update_footprint_x dim_x sched Hs).
    intros a Ha. apply x_cell_in_batch with N; auto; lia.
  - apply (cupy_update_footprint_P dim_x sched Hs).
    intros a b Ha Hb. apply P_cell_in_batch with N; auto; lia.
Qed.

Lemma launch_stores_inside_batch_witness :
  let pn := fst (Numba.predict 2 one_tile (lanes 2) 1 gp2
                   (fun _ => zeros)) in
  let pc := fst (Cupy.predict 2 one_tile (lanes 2) 1 gp2
                   (fun _ => zero_predict_smem)) in
  let un := fst (Numba.update 2 2 one_tile (lanes 2) 1 g22
                   (fun _ => zeros)) in
  let uc := fst (Cupy.update 2 2 one_tile (lanes 2) 1 g22
                   (fun _ => zero_smem)) in
  (p_x pn 2 = p_x gp2 2 /\ p_P pn 4 = p_P gp2 4) /\
  (p_x pc 2 = p_x gp2 2 /\ p_P pc 4 = p_P gp2 4) /\
  (u_x un 2 = u_x g22 2 /\ u_P un 4 = u_P g22 4) /\
  (u_x uc 2 = u_x g22 2 /\ u_P uc 4 = u_P g22 4).
Proof.
  apply (launch_stores_inside_batch 2 2 one_tile (lanes 2) 1 gp2 g22
           (fun _ => zeros) (fun _ => zero_predict_smem)
           (fun _ => zero_smem) 2 4).
  - exact lanes_2_perm.
  - simpl. lia.
  - simpl. lia.
  - simpl. lia.
Defined.

(** ** Kernel cache: entries of other precisions and strategies *)

Lemma dtype_name_inj t t' : dtype_name t = dtype_name t' -> t = t'.
Proof. destruct t, t'; simpl; intros H; congruence. Qed.

(** X12: building kernels for one element type and strategy changes no
    answer to a request for another element type or for the other
    strategy, whatever the caches held before. *)
Theorem build_keeps_other_kernels
    (np_ty np_ty' : np_type) (use_numba use_numba' : bool)
    (dim_x dim_z max_tpb min_bpsm : nat) (k_type : GPUKernel) (c : caches) :
  np_ty' <> np_ty \/ use_numba' <> use_numba ->
  _get_backend_kernel np_ty' use_numba' k_type
    (fst (_populate_kernel_cache np_ty use_numba dim_x dim_z max_tpb
            min_bpsm c))
  = _get_backend_kernel np_ty' use_numba' k_type c.
Proof.
  intros Hd. unfold _populate_kernel_cache.
  destruct (_SUPPORTED_TYPES np_ty) as [[nt ct]|] eqn:Hs; simpl;
    [|reflexivity].
  pose proof (supported_name _ _ _ Hs) as Hn.
  assert (Hk : use_numba' = use_numba -> forall kind,
            (dtype_name np_ty', k_type) <> (numba_str nt, kind)).
  { intros Hu kind E. destruct Hd as [Hd|Hd]; [|contradiction].
    apply Hd, dtype_name_inj. rewrite Hn. congruence. }
  unfold _get_backend_kernel.
  destruct use_numba, use_numba'; simpl; try reflexivity.
  - rewrite !lookup_insert_ne by (apply not_eq_sym, Hk; reflexivity).
    reflexivity.
  - rewrite !lookup_insert_ne by (apply not_eq_sym, Hk; reflexivity).
    reflexivity.
Qed.

Lemma build_keeps_other_kernels_witness :
  _get_backend_kernel cp_float32 false PREDICT
    (fst (_populate_kernel_cache cp_float64 false 3 3 256 2 built_twice))
  = _get_backend_kernel cp_float32 false PREDICT built_twice.
Proof.
  apply (build_keeps_other_kernels cp_float64 cp_float32 false false
           3 3 256 2 PREDICT built_twice).
  left. discriminate.
Defined.

(** X13: a request made before anything was built raises [KeyError],
    and so does a request for the strategy other than the one kernels
    were built for; the [ValueError] the function prepares for a
    missing kernel is not what is raised. *)
Theorem request_without_build_raises_KeyError
    (np_ty dtype : np_type) (use_numba : bool)
    (dim_x dim_z max_tpb min_bpsm : nat) (k_type : GPUKernel) :
  _get_backend_kernel dtype use_numba k_type empty_caches = Raise KeyError /\
  _get_backend_kernel dtype (negb use_numba) k_type
    (fst (_populate_kernel_cache np_ty use_numba dim_x dim_z max_tpb
            min_bpsm empty_caches))
  = Raise KeyError.
Proof.
  assert (He : forall d u, _get_backend_kernel d u k_type empty_caches
                           = Raise KeyError).
  { intros d u. unfold _get_backend_kernel, empty_caches.
    destruct u; simpl; now rewrite lookup_empty. }
  split; [apply He|].
  unfold _populate_kernel_cache.
  destruct (_SUPPORTED_TYPES np_ty) as [[nt ct]|]; simpl; [|apply He].
  unfold _get_backend_kernel, empty_caches.
  destruct use_numba; simpl; now rewrite lookup_empty.
Qed.

(** ** Staging values that the tiles can hold *)




